(** * create_presentation_assets.py: a shallow embedding

    The script loads two JSON documents, selects up to three wrongly
    predicted samples, and writes four presentation files.

    - Python [str] values are sequences of Unicode code points.
    - The two documents are records with the fields of the input format;
      counts are unbounded integers, as Python's [int].
    - [float] is binary64, taken from the Standard Library's [SpecFloat];
      [float(n)] of an [int] out of range raises [OverflowError] and a
      division by zero raises [ZeroDivisionError].
    - The working directory is a finite map from file names to texts, and
      every function that reads, writes, prints or may raise is a
      computation in a state-and-exception monad over it.
    - The [json] module is a parameter of the generator. *)

From Stdlib Require Import ZArith NArith List String Ascii Bool Lia.
From Stdlib Require Import DecimalString SpecFloat Reals Lra.
From stdpp Require Import gmap strings.
Import ListNotations.

#[local] Set Warnings "-register-all".
#[local] Open Scope Z_scope.

(** ** Python text *)

Module Text.

(** A character is a Unicode code point; a [str] is a sequence of them. *)
Definition char := N.
Definition str := list char.

(** String literals of this file are UTF-8; [utf8_decode] turns their bytes
    into code points ([need] continuation bytes are still expected for the
    code point accumulated in [acc]). *)
Fixpoint utf8_decode (bs : list N) (need : nat) (acc : N) : str :=
  match bs with
  | [] => []
  | b :: rest =>
      match need with
      | O =>
          if (b <? 128)%N then b :: utf8_decode rest 0 0%N
          else if (b <? 224)%N then utf8_decode rest 1 (b mod 32)%N
          else if (b <? 240)%N then utf8_decode rest 2 (b mod 16)%N
          else utf8_decode rest 3 (b mod 8)%N
      | S O => (acc * 64 + b mod 64)%N :: utf8_decode rest 0 0%N
      | S k => utf8_decode rest k (acc * 64 + b mod 64)%N
      end
  end.

Definition lit (s : string) : str :=
  utf8_decode (map N_of_ascii (list_ascii_of_string s)) 0 0%N.

(** The double quote, which a literal of this file cannot hold. *)
Definition dq : str := [34%N].

Definition newline : char := 10%N.

Fixpoint str_eqb (a b : str) : bool :=
  match a, b with
  | [], [] => true
  | x :: a', y :: b' => (x =? y)%N && str_eqb a' b'
  | _, _ => false
  end.

(** [str.isspace] as [str.strip] uses it: the ASCII table and the code
    points of bidirectional type WS, B, S or category Zs. *)
Definition isspace (c : char) : bool :=
  ((9 <=? c) && (c <=? 13) || (28 <=? c) && (c <=? 32)
   || (c =? 133) || (c =? 160) || (c =? 5760)
   || (8192 <=? c) && (c <=? 8202)
   || (c =? 8232) || (c =? 8233) || (c =? 8239) || (c =? 8287)
   || (c =? 12288))%N.

(** [s.split(sep)] for a one-character separator: never empty, and one
    more piece than there are separators. *)
Fixpoint split (s : str) (sep : char) : list str :=
  match s with
  | [] => [[]]
  | c :: t =>
      if (c =? sep)%N then [] :: split t sep
      else match split t sep with
           | l :: ls => (c :: l) :: ls
           | [] => [[c]]
           end
  end.

(** [s.startswith(prefix)] *)
Fixpoint startswith (s prefix : str) {struct prefix} : bool :=
  match prefix with
  | [] => true
  | p :: ps =>
      match s with
      | [] => false
      | c :: cs => (c =? p)%N && startswith cs ps
      end
  end.

Fixpoint lstrip (s : str) : str :=
  match s with
  | [] => []
  | c :: t => if isspace c then lstrip t else s
  end.

Fixpoint rstrip (s : str) : str :=
  match s with
  | [] => []
  | c :: t =>
      match rstrip t with
      | [] => if isspace c then [] else [c]
      | r => c :: r
      end
  end.

(** [s.strip()] *)
Definition strip (s : str) : str := rstrip (lstrip s).

(** [s.replace(old, new)] for a non-empty [old]: every occurrence, found
    left to right without overlap, is replaced.  [skip] counts the
    characters of the occurrence just replaced that are still to be
    dropped. *)
Fixpoint replace_from (old new : str) (skip : nat) (s : str) : str :=
  match s with
  | [] => []
  | c :: t =>
      match skip with
      | S k => replace_from old new k t
      | O =>
          if startswith s old
          then new ++ replace_from old new (length old - 1) t
          else c :: replace_from old new 0 t
      end
  end.

Definition replace (s old new : str) : str := replace_from old new 0 s.

(** [str(n)] for an [int]. *)
Definition str_of_int (n : Z) : str :=
  lit (NilEmpty.string_of_int (Z.to_int n)).

(** [s * n]: repetition. *)
Fixpoint repeat_str (s : str) (n : nat) : str :=
  match n with
  | O => []
  | S k => s ++ repeat_str s k
  end.

End Text.

Import Text.

(** ** Prompt parsing: [extract_question] and [extract_path] *)

Definition question_prefix : str := lit "Question:".
Definition depth_prefix : str := lit "[Depth".
Definition unknown_question : str := lit "Unknown question".

(** The [for] loop of [extract_question]: it returns at the first line that
    starts with the prefix, and falls through to the placeholder. *)
Fixpoint extract_question_loop (lines : list str) : str :=
  match lines with
  | [] => unknown_question
  | line :: rest =>
      if startswith line question_prefix
      then strip (replace line question_prefix [])
      else extract_question_loop rest
  end.

Definition extract_question (prompt : str) : str :=
  let lines := split prompt newline in
  extract_question_loop lines.

(** The [for] loop of [extract_path], appending to [path]. *)
Definition extract_path_step (path : list str) (line : str) : list str :=
  if startswith line depth_prefix then path ++ [strip line] else path.

Definition extract_path (prompt : str) : list str :=
  let lines := split prompt newline in
  fold_left extract_path_step lines [].

(** What the specification says of question extraction: the first line
    with the prefix, that leading prefix cut off, the rest stripped. *)
Fixpoint spec_first_question_line (lines : list str) : option str :=
  match lines with
  | [] => None
  | line :: rest =>
      if startswith line question_prefix then Some line
      else spec_first_question_line rest
  end.

Definition spec_extract_question (prompt : str) : str :=
  match spec_first_question_line (split prompt newline) with
  | Some line => strip (skipn (length question_prefix) line)
  | None => unknown_question
  end.

(** ** Data model *)

(** JSON values as [json.dump] receives them; an object keeps the insertion
    order of its keys, as a Python [dict] does. *)
Inductive json :=
  | JInt (n : Z)
  | JFloat (x : spec_float)
  | JStr (s : str)
  | JArr (items : list json)
  | JObj (fields : list (str * json)).

Record Metadata := {
  predictedOutcome : str;
  actualOutcome : str;
  cumulativeProbability : spec_float
}.

Record Sample := {
  prompt : str;
  chosen : str;
  rejected : str;
  metadata : Metadata
}.

Record ByOutcome := { YES : Z; NO : Z }.

Record Statistics := {
  totalDPOPairs : Z;
  totalPaths : Z;
  correctPaths : Z;
  incorrectPaths : Z;
  llmAccuracy : str;
  byOutcome : ByOutcome
}.

(** ** The world and its monad *)

Inductive exn :=
  | FileNotFoundError
  | JSONDecodeError
  | OverflowError
  | ZeroDivisionError.

(** The working directory and what was printed, one entry per [print]. *)
Record world := {
  files : gmap string str;
  stdout : list str
}.

Definition M (A : Type) : Type := world -> world * (exn + A).

Definition ret {A} (a : A) : M A := fun w => (w, inr a).

Definition raise {A} (e : exn) : M A := fun w => (w, inl e).

(** An exception stops the run; the world it was raised in is what is left. *)
Definition bind {A B} (m : M A) (k : A -> M B) : M B :=
  fun w =>
    match m w with
    | (w', inl e) => (w', inl e)
    | (w', inr a) => k a w'
    end.

#[export] Instance M_ret : MRet M := @ret.
#[export] Instance M_bind : MBind M := fun A B k m => bind m k.

Definition lift {A} (r : exn + A) : M A := fun w => (w, r).

Definition print (s : str) : M unit :=
  fun w => ({| files := files w; stdout := stdout w ++ [s] |}, inr tt).

(** [open(name)] followed by a read of the whole text. *)
Definition read_file (name : string) : M str :=
  fun w =>
    match files w !! name with
    | Some text => (w, inr text)
    | None => (w, inl FileNotFoundError)
    end.

(** [with open(name, 'w') as f: f.write(text)]: the file is replaced.
    Writing and printing always succeed here: the directory is writable
    and the encoding of files and of the terminal has every character. *)
Definition write_file (name : string) (text : str) : M unit :=
  fun w => ({| files := <[name := text]> (files w); stdout := stdout w |}, inr tt).

(** ** Selecting and formatting the comparison examples *)

Definition wrong_prediction (s : Sample) : bool :=
  negb (str_eqb (predictedOutcome (metadata s)) (actualOutcome (metadata s))).

Definition right_prediction (s : Sample) : bool :=
  str_eqb (predictedOutcome (metadata s)) (actualOutcome (metadata s)).

(** [enumerate(l, start)] *)
Fixpoint enumerate {A} (l : list A) (start : Z) : list (Z * A) :=
  match l with
  | [] => []
  | x :: t => (start, x) :: enumerate t (start + 1)
  end.

Definition comparison_title : str := lit "DPO Training: Learning from Mistakes".
Definition comparison_subtitle : str :=
  lit "Teaching the model to prefer correct predictions over incorrect ones".

Definition dpo_action (sample : Sample) : str :=
  lit "Decrease P('" ++ rejected sample ++ lit "') and Increase P('"
  ++ chosen sample ++ lit "')".

Definition example (i : Z) (sample : Sample) : json :=
  JObj [
    (lit "example_number", JInt i);
    (lit "question", JStr (extract_question (prompt sample)));
    (lit "scenario_path", JArr (map JStr (extract_path (prompt sample))));
    (lit "cumulative_probability", JFloat (cumulativeProbability (metadata sample)));
    (lit "model_said", JObj [
       (lit "prediction", JStr (predictedOutcome (metadata sample)));
       (lit "label", JStr (lit "REJECTED ❌"));
       (lit "reasoning", JStr (lit "Model incorrectly predicted this outcome"))]);
    (lit "actual_outcome", JObj [
       (lit "answer", JStr (actualOutcome (metadata sample)));
       (lit "label", JStr (lit "CHOSEN ✓"));
       (lit "reasoning", JStr (lit "Verified historical outcome"))]);
    (lit "dpo_action", JStr (dpo_action sample))
  ].

(** The [comparison] dictionary; its ["examples"] list is the one the loop
    appends to. *)
Record comparison := {
  title : str;
  subtitle : str;
  examples : list json
}.

Definition comparison_json (c : comparison) : json :=
  JObj [
    (lit "title", JStr (title c));
    (lit "subtitle", JStr (subtitle c));
    (lit "examples", JArr (examples c))
  ].

Definition append_example (c : comparison) (e : json) : comparison :=
  {| title := title c; subtitle := subtitle c; examples := examples c ++ [e] |}.

(** The part of [create_comparison_examples] before the file is opened. *)
Definition build_comparison (samples : list Sample) : comparison :=
  let wrong_predictions := List.filter wrong_prediction samples in
  let right_predictions := List.filter right_prediction samples in
  let comparison0 :=
    {| title := comparison_title;
       subtitle := comparison_subtitle;
       examples := [] |} in
  fold_left (fun c '(i, sample) => append_example c (example i sample))
            (enumerate (firstn 3 wrong_predictions) 1) comparison0.

(** ** Binary64 arithmetic, as CPython's [float] has it *)

#[export] Instance exn_ret : MRet (sum exn) := fun A a => inr a.
#[export] Instance exn_bind : MBind (sum exn) := fun A B k r =>
  match r with
  | inl e => inl e
  | inr a => k a
  end.

Module Float.

Definition prec : Z := 53.
Definition emax : Z := 1024.

(** [float(n)] and the conversion of an [int] operand: rounded to nearest,
    ties to even; an [int] beyond the range raises. *)
Definition of_int (n : Z) : exn + spec_float :=
  match binary_normalize prec emax n 0 false with
  | S754_infinity _ => inl OverflowError
  | x => inr x
  end.

Definition is_zero (x : spec_float) : bool :=
  match x with
  | S754_zero _ => true
  | _ => false
  end.

(** [x / n] for a [float] and an [int]. *)
Definition truediv_int (x : spec_float) (n : Z) : exn + spec_float :=
  y ← of_int n;
  if is_zero y then inl ZeroDivisionError else mret (SFdiv prec emax x y).

(** [x * n] for a [float] and an [int]. *)
Definition mul_int (x : spec_float) (n : Z) : exn + spec_float :=
  y ← of_int n;
  mret (SFmul prec emax x y).

(** [n / d] rounded to the nearest integer, ties to even ([0 <= n], [0 < d]). *)
Definition round_half_even (n d : Z) : Z :=
  let q := n / d in
  let r := n mod d in
  match 2 * r ?= d with
  | Lt => q
  | Gt => q + 1
  | Eq => if Z.even q then q else q + 1
  end.

(** The magnitude [m * 2^e] in tenths, correctly rounded. *)
Definition tenths (m : positive) (e : Z) : Z :=
  if 0 <=? e then Zpos m * 10 * 2 ^ e
  else round_half_even (Zpos m * 10) (2 ^ (- e)).

Definition sign (s : bool) : str := if s then lit "-" else [].

Definition fixed1 (s : bool) (t : Z) : str :=
  sign s ++ str_of_int (t / 10) ++ lit "." ++ str_of_int (t mod 10).

(** [format(x, '.1f')] *)
Definition format_1f (x : spec_float) : str :=
  match x with
  | S754_nan => lit "nan"
  | S754_infinity s => sign s ++ lit "inf"
  | S754_zero s => fixed1 s 0
  | S754_finite s m e => fixed1 s (tenths m e)
  end.

End Float.

(** [float(count)/total*100] *)
Definition percentage (count total : Z) : exn + spec_float :=
  x ← Float.of_int count;
  q ← Float.truediv_int x total;
  Float.mul_int q 100.

(** [f"{float(count)/total*100:.1f}"] *)
Definition percent (count total : Z) : exn + str :=
  p ← percentage count total;
  mret (Float.format_1f p).

(** ** The static texts *)

Definition architecture_diagram : str :=
  lit "
╔══════════════════════════════════════════════════════════════════════════╗
║                    DPO TRAINING PIPELINE ARCHITECTURE                    ║
╚══════════════════════════════════════════════════════════════════════════╝

┌─────────────────────────────────────────────────────────────────────────┐
│ STEP 1: Data Generation                                                 │
└─────────────────────────────────────────────────────────────────────────┘

   Seed Event (e.g., "
  ++ dq
  ++ lit "Will Trump win 2024 election?"
  ++ dq
  ++ lit ")
         │
         ▼
   ┌─────────────────┐
   │ Tree Generation │  ← DeepSeek R1 generates probability tree
   └─────────────────┘
         │
         ▼
   40 scenario paths with cumulative probabilities
         │
         ▼
   ┌─────────────────┐
   │ LLM Classifier  │  ← Classify each path as YES/NO
   └─────────────────┘
         │
         ▼
   Compare predictions to actual outcomes (ground truth)
         │
         ├─── Correct prediction → CHOSEN ✓
         └─── Wrong prediction → REJECTED ❌

┌─────────────────────────────────────────────────────────────────────────┐
│ STEP 2: DPO Training (Reinforcement Learning)                           │
└─────────────────────────────────────────────────────────────────────────┘

   For each (prompt, chosen, rejected) pair:

   Loss = -log(σ(β * [log π_θ(chosen|prompt) - log π_ref(chosen|prompt)
                     - log π_θ(rejected|prompt) + log π_ref(rejected|prompt)]))

   Where:
   • π_θ = Policy model (being trained)
   • π_ref = Reference model (frozen)
   • β = Temperature parameter (controls strength)
   • σ = Sigmoid function

   Effect: Model learns to:
   ✓ Increase probability of correct predictions (chosen)
   ✗ Decrease probability of incorrect predictions (rejected)

┌─────────────────────────────────────────────────────────────────────────┐
│ STEP 3: Expected Improvements                                           │
└─────────────────────────────────────────────────────────────────────────┘

   BEFORE DPO (Baseline):           AFTER DPO (Expected):
   ┌────────────────────┐           ┌────────────────────┐
   │ Accuracy:    50%   │           │ Accuracy:    85%+  │
   │ Calibration: 0.25  │    ═══>   │ Calibration: 0.10  │
   │ Confidence: Random │           │ Confidence: Sharp  │
   └────────────────────┘           └────────────────────┘

╔══════════════════════════════════════════════════════════════════════════╗
║ KEY INSIGHT: DPO directly optimizes for human preferences without       ║
║ requiring a separate reward model (unlike RLHF)                         ║
╚══════════════════════════════════════════════════════════════════════════╝
".

Definition slide_content : str :=
  lit "# DPO Training Pipeline for Event Forecasting
## Reinforcement Learning from Historical Outcomes

---

## Slide 1: The Problem

**Challenge:** How do we train AI models to make better probabilistic forecasts?

**Current Approach:**
- Supervised Fine-Tuning (SFT): Model learns from examples
- But SFT doesn't teach *preferences* (why one prediction is better)

**Our Solution:**
- Direct Preference Optimization (DPO)
- Train directly on (correct, incorrect) prediction pairs
- Learn to prefer accurate forecasts over inaccurate ones

---

## Slide 2: DPO Training Pipeline

```
Seed Event → Tree Generation → Path Classification → DPO Pairs
     ↓              ↓                  ↓                  ↓
"
  ++ dq
  ++ lit "Will Trump    Probability      LLM predicts        (Chosen, Rejected)
 win 2024?"
  ++ dq
  ++ lit "    tree (40 paths)  YES/NO per path     pairs for training
```

**Key Insight:** We use *actual historical outcomes* as ground truth
- Correct predictions → CHOSEN ✓
- Wrong predictions → REJECTED ❌

---

## Slide 3: Real Training Data Example

**Question:** Will Donald Trump win the 2024 US Presidential Election?

**Scenario Path:**
[Depth 1] Status quo continues (p=0.50)
[Depth 2] Status quo continues (p=0.50)
[Depth 3] Unexpected development (p=0.50)
**Cumulative Probability:** 0.125

**Model Prediction:** NO ❌
**Actual Outcome:** YES ✓

**DPO Training Effect:**
- ⬆️ Increase P(YES) for this scenario
- ⬇️ Decrease P(NO) for this scenario

---

## Slide 4: Expected Performance Gains

| Metric | Before DPO | After DPO | Improvement |
|--------|-----------|-----------|-------------|
| **Accuracy** | 50% | 85%+ | +35-40 pts |
| **Calibration** | 0.25 | 0.10 | 60% better |
| **Confidence (Correct)** | Random | High (0.80+) | Reliable |
| **Confidence (Wrong)** | Random | Low (0.50) | Trustworthy |

**What This Means:**
- Model learns when it's right vs wrong
- Users can trust high-confidence predictions
- Critical for real-world forecasting applications

---

## Slide 5: Why DPO vs Traditional RLHF?

**Traditional RLHF:**
1. Train reward model (expensive)
2. Use reward model for PPO training (complex)
3. Requires huge compute

**DPO (Our Approach):**
1. Direct optimization from preferences (simple)
2. No separate reward model needed (efficient)
3. 2-3 hours on A10G GPU (~$2-3)

**Benefits:**
- ✓ 10x faster training
- ✓ More stable (no reward model drift)
- ✓ Better results with less data

---

## Slide 6: Dataset Quality

**Generated Training Data:**
- 40 DPO pairs from 5 real events
- 50% baseline accuracy (random guessing)
- Balanced YES/NO outcomes (40/60 split)

**Pairs Include:**
- Full scenario context (depth-3 paths)
- Cumulative probabilities
- Verified historical outcomes
- Metadata for analysis

**Next Steps:**
- Scale to 1000+ events
- Train production model
- Deploy to live forecasting system

---

## Key Takeaway

**DPO enables efficient reinforcement learning for forecasting:**
- Learn directly from historical accuracy
- Dramatically improve prediction quality
- Minimal compute cost (~$3 per training run)
- Production-ready in 2-3 hours

**This is how we'll deploy AI forecasting at scale.**
".

Definition files_created_summary : str :=
  lit "
📁 Files Created:
  1. dpo_comparison_examples.json    - Side-by-side chosen vs rejected examples
  2. dpo_architecture_diagram.txt    - ASCII pipeline architecture
  3. dpo_performance_table.txt       - Expected performance improvements
  4. dpo_presentation_slides.md      - Ready-to-use slide content

💡 Suggested Uses:
  • Show dpo_comparison_examples.json in a side-by-side slide
  • Display dpo_architecture_diagram.txt to explain the pipeline
  • Use dpo_performance_table.txt to emphasize impact
  • Import dpo_presentation_slides.md into your presentation tool

🎯 Key Message:
  "
  ++ dq
  ++ lit "We built a DPO training pipeline that will improve forecasting accuracy
   from 50% (random) to 85%+ using reinforcement learning from historical
   outcomes - all for ~$3 per training run."
  ++ dq
  ++ lit "
".

Definition table_text (stats : Statistics) (correct_percent wrong_percent : str) : str :=
  lit "
╔══════════════════════════════════════════════════════════════════════════╗
║                    EXPECTED DPO TRAINING RESULTS                         ║
╚══════════════════════════════════════════════════════════════════════════╝

┌────────────────────────────────────────────────────────────────────────┐
│ CURRENT BASELINE (No Training)                                         │
└────────────────────────────────────────────────────────────────────────┘

  Dataset Statistics:
  • Total DPO Pairs:      "
  ++ str_of_int (totalDPOPairs stats)
  ++ lit "
  • Total Paths:          "
  ++ str_of_int (totalPaths stats)
  ++ lit "
  • Correct Predictions:  "
  ++ str_of_int (correctPaths stats)
  ++ lit " ("
  ++ correct_percent
  ++ lit "%)
  • Wrong Predictions:    "
  ++ str_of_int (incorrectPaths stats)
  ++ lit " ("
  ++ wrong_percent
  ++ lit "%)
  • LLM Accuracy:         "
  ++ llmAccuracy stats
  ++ lit "

  Outcome Distribution:
  • YES outcomes:         "
  ++ str_of_int (YES (byOutcome stats))
  ++ lit "
  • NO outcomes:          "
  ++ str_of_int (NO (byOutcome stats))
  ++ lit "

┌────────────────────────────────────────────────────────────────────────┐
│ EXPECTED IMPROVEMENTS AFTER DPO TRAINING                               │
└────────────────────────────────────────────────────────────────────────┘

  ┏━━━━━━━━━━━━━━━━━━━━━━┳━━━━━━━━━━━━━━┳━━━━━━━━━━━━━━━━━━━━━━━━━┓
  ┃ Metric               ┃ Before DPO   ┃ After DPO (Expected)    ┃
  ┡━━━━━━━━━━━━━━━━━━━━━━╇━━━━━━━━━━━━━━╇━━━━━━━━━━━━━━━━━━━━━━━━━┩
  │ Classification       │ 50.0%        │ 85-90% ✓                │
  │ Accuracy             │              │ (+35-40 points)         │
  ├──────────────────────┼──────────────┼─────────────────────────┤
  │ Calibration Error    │ ~0.25        │ ~0.10 ✓                 │
  │ (ECE)                │              │ (60% reduction)         │
  ├──────────────────────┼──────────────┼─────────────────────────┤
  │ Confidence on        │ Low/Random   │ High ✓                  │
  │ Correct Predictions  │              │ (0.75-0.85)             │
  ├──────────────────────┼──────────────┼─────────────────────────┤
  │ Confidence on        │ High/Random  │ Low ✓                   │
  │ Wrong Predictions    │              │ (0.45-0.55)             │
  ├──────────────────────┼──────────────┼─────────────────────────┤
  │ Brier Score          │ ~0.35        │ ~0.15 ✓                 │
  │                      │              │ (Better calibration)    │
  ├──────────────────────┼──────────────┼─────────────────────────┤
  │ Log Loss             │ ~0.69        │ ~0.35 ✓                 │
  │                      │              │ (50% improvement)       │
  └──────────────────────┴──────────────┴─────────────────────────┘

┌────────────────────────────────────────────────────────────────────────┐
│ WHY THESE IMPROVEMENTS MATTER                                          │
└────────────────────────────────────────────────────────────────────────┘

  1. ACCURACY (50% → 85%+)
     • Baseline is random guessing (coin flip)
     • DPO learns actual patterns from historical outcomes
     • Dramatic improvement in prediction reliability

  2. CALIBRATION (0.25 → 0.10)
     • Before: Model is overconfident on wrong answers
     • After: Confidence matches actual correctness
     • Critical for trustworthy forecasting

  3. CONFIDENCE ALIGNMENT
     • Before: Can't distinguish when it's right vs wrong
     • After: High confidence = usually correct
     • Enables users to trust high-confidence predictions

  4. BRIER SCORE (0.35 → 0.15)
     • Measures probabilistic forecast quality
     • Lower is better (perfect = 0.0)
     • Significant improvement in probability estimates

╔══════════════════════════════════════════════════════════════════════════╗
║ TRAINING COST ESTIMATE:                                                  ║
║ • LoRA rank 4 (minimal parameters)                                       ║
║ • ~500 training steps                                                    ║
║ • A10G GPU: ~2-3 hours                                                   ║
║ • Estimated cost: $2-3 on Modal                                          ║
╚══════════════════════════════════════════════════════════════════════════╝
".

(** ** The asset generator *)

Definition statistics_file : string := "dpo_classifier_statistics.json".
Definition samples_file : string := "dpo_classifier_training_sample.json".
Definition comparison_file : string := "dpo_comparison_examples.json".
Definition diagram_file : string := "dpo_architecture_diagram.txt".
Definition table_file : string := "dpo_performance_table.txt".
Definition slides_file : string := "dpo_presentation_slides.md".

Definition output_files : list string :=
  [comparison_file; diagram_file; table_file; slides_file].

Section Generator.

(** The [json] module is outside the script: [json.load] restricted to the
    two documents of the input format ([None] when the text is not valid
    JSON), and the text [json.dump(_, _, indent=2)] writes. *)
Variable json_load_statistics : str -> option Statistics.
Variable json_load_samples : str -> option (list Sample).
Variable json_dump : json -> str.

Definition json_load {A} (parse : str -> option A) (name : string) : M A :=
  text ← read_file name;
  match parse text with
  | Some v => mret v
  | None => raise JSONDecodeError
  end.

Definition load_data : M (Statistics * list Sample) :=
  stats ← json_load json_load_statistics statistics_file;
  samples ← json_load json_load_samples samples_file;
  mret (stats, samples).

Definition create_comparison_examples
    (samples : list Sample) (output_file : string) : M comparison :=
  let comparison := build_comparison samples in
  write_file output_file (json_dump (comparison_json comparison));;
  print (lit "✓ Created comparison examples: " ++ lit output_file);;
  mret comparison.

Definition create_architecture_diagram : M str :=
  let diagram := architecture_diagram in
  write_file diagram_file diagram;;
  print (lit "✓ Created architecture diagram: dpo_architecture_diagram.txt");;
  mret diagram.

(** The f-string of [create_performance_table], evaluated left to right. *)
Definition performance_table (stats : Statistics) : exn + str :=
  correct_percent ← percent (correctPaths stats) (totalPaths stats);
  wrong_percent ← percent (incorrectPaths stats) (totalPaths stats);
  mret (table_text stats correct_percent wrong_percent).

Definition create_performance_table (stats : Statistics) : M str :=
  table ← lift (performance_table stats);
  write_file table_file table;;
  print (lit "✓ Created performance table: dpo_performance_table.txt");;
  mret table.

Definition create_slide_content : M str :=
  let slides := slide_content in
  write_file slides_file slides;;
  print (lit "✓ Created presentation slides: dpo_presentation_slides.md");;
  mret slides.

Definition rule : str := repeat_str (lit "=") 80.

Definition main : M unit :=
  print ([newline] ++ rule);;
  print (lit "  CREATING DPO TRAINING PRESENTATION ASSETS");;
  print (rule ++ [newline]);;
  print (lit "📊 Loading generated training data...");;
  '(stats, samples) ← load_data;
  print (lit "
🎨 Generating presentation assets...
");;
  comparison ← create_comparison_examples samples comparison_file;
  diagram ← create_architecture_diagram;
  table ← create_performance_table stats;
  slides ← create_slide_content;
  print ([newline] ++ rule);;
  print (lit "  ✅ ALL ASSETS CREATED SUCCESSFULLY");;
  print rule;;
  print files_created_summary.

End Generator.

(** ** Names used by the statements, and concrete inputs *)

(** The lines [extract_path] keeps. *)
Definition is_depth_line (line : str) : bool := startswith line depth_prefix.

(** An entry of [enumerate] turned into its example. *)
Definition example_of (p : Z * Sample) : json := example (fst p) (snd p).

(** A prompt whose question quotes the word it starts with. *)
Definition quoting_prompt : str :=
  lit "Question: Will the 'Question: who wins?' poll close early?
[Depth 1] Status quo continues (p=0.50)".

Definition wrong_sample : Sample := {|
  prompt := lit "Question: Will X happen?
[Depth 1] A (p=0.5)
[Depth 2] B (p=0.5)";
  chosen := lit "YES";
  rejected := lit "NO";
  metadata := {|
    predictedOutcome := lit "NO";
    actualOutcome := lit "YES";
    cumulativeProbability := S754_finite false 1 (-2)
  |}
|}.

Definition right_sample : Sample := {|
  prompt := lit "Question: Will Y happen?
[Depth 1] C (p=0.5)";
  chosen := lit "NO";
  rejected := lit "YES";
  metadata := {|
    predictedOutcome := lit "NO";
    actualOutcome := lit "NO";
    cumulativeProbability := S754_finite false 1 (-1)
  |}
|}.

Definition balanced_statistics : Statistics := {|
  totalDPOPairs := 40;
  totalPaths := 40;
  correctPaths := 20;
  incorrectPaths := 20;
  llmAccuracy := lit "50%";
  byOutcome := {| YES := 16; NO := 24 |}
|}.

Definition empty_statistics : Statistics := {|
  totalDPOPairs := 0;
  totalPaths := 0;
  correctPaths := 0;
  incorrectPaths := 0;
  llmAccuracy := lit "0%";
  byOutcome := {| YES := 0; NO := 0 |}
|}.

(** A JSON printer without indentation or escapes, to run the generator
    on concrete inputs. *)
Fixpoint compact_dump (j : json) : str :=
  match j with
  | JInt n => str_of_int n
  | JFloat x => Float.format_1f x
  | JStr s => dq ++ s ++ dq
  | JArr items => lit "[" ++ concat (map compact_dump items) ++ lit "]"
  | JObj fields =>
      lit "{"
      ++ concat (map (fun kv => dq ++ fst kv ++ dq ++ lit ":"
                                ++ compact_dump (snd kv)) fields)
      ++ lit "}"
  end.

(** A directory holding nothing, and nothing printed. *)
Definition empty_world : world := {| files := ∅; stdout := [] |}.

(** The files after the first two formatters. *)
Definition files_after_diagram
    (json_dump : json -> str) (samples : list Sample) (w : world)
  : gmap string str :=
  <[diagram_file := architecture_diagram]>
    (<[comparison_file := json_dump (comparison_json (build_comparison samples))]>
       (files w)).

(** An input file that is missing or does not hold valid JSON. *)
Definition unreadable {A} (parse : str -> option A) (name : string) (w : world)
  : Prop :=
  match files w !! name with
  | None => True
  | Some text => parse text = None
  end.

(** Two input files, with loaders that know their contents. *)
Definition statistics_text : str := lit "{statistics}".
Definition samples_text : str := lit "[samples]".

Definition input_world : world := {|
  files := <[statistics_file := statistics_text]>
             (<[samples_file := samples_text]> ∅);
  stdout := []
|}.

Definition load_as {A} (expected : str) (v : A) (text : str) : option A :=
  if str_eqb text expected then Some v else None.

(** Statistics with no path, and a count no [float] can hold. *)
Definition huge_statistics : Statistics := {|
  totalDPOPairs := 0;
  totalPaths := 0;
  correctPaths := 2 ^ 1024;
  incorrectPaths := 0;
  llmAccuracy := lit "0%";
  byOutcome := {| YES := 0; NO := 0 |}
|}.

(** The loaders of the concrete runs below. *)
Definition five_samples : list Sample :=
  [right_sample; wrong_sample; right_sample; wrong_sample; right_sample].

Definition load_balanced : str -> option Statistics :=
  load_as statistics_text balanced_statistics.
Definition load_empty : str -> option Statistics :=
  load_as statistics_text empty_statistics.
Definition load_huge : str -> option Statistics :=
  load_as statistics_text huge_statistics.
Definition load_five : str -> option (list Sample) :=
  load_as samples_text five_samples.

(** The directory of [input_world] with the samples file damaged. *)
Definition damaged_world : world := {|
  files := <[samples_file := lit "[samples"]> (files input_world);
  stdout := []
|}.

(** The directory of [input_world] after some earlier run. *)
Definition stale_world : world := {|
  files := <[table_file := lit "an old table"]> (files input_world);
  stdout := [lit "an old message"]
|}.

(** The real number a mantissa and an exponent stand for, and the
    relative error of one rounding. *)
Definition F2R (m e : Z) : R := (IZR m * powerRZ 2 e)%R.

Definition eps : R := (/ IZR (2 ^ 52))%R.

(** Statistics whose first percentage lies just above a rounding boundary,
    and statistics with a count beyond the range of [float]. *)
Definition boundary_statistics : Statistics := {|
  totalDPOPairs := 8592419347019;
  totalPaths := 8592419347019;
  correctPaths := 6104913946057;
  incorrectPaths := 2487505400962;
  llmAccuracy := lit "71%";
  byOutcome := {| YES := 6104913946057; NO := 2487505400962 |}
|}.

Definition overflowing_statistics : Statistics := {|
  totalDPOPairs := 1;
  totalPaths := 1;
  correctPaths := 2 ^ 1024;
  incorrectPaths := 0;
  llmAccuracy := lit "100%";
  byOutcome := {| YES := 1; NO := 0 |}
|}.

(** Whether some line of the prompt starts with ["Question:"]. *)
Definition has_question_line (prompt : str) : bool :=
  existsb (fun line => startswith line question_prefix) (split prompt newline).

(** A prompt without a question line, and one whose question comes after
    a heading. *)
Definition heading_prompt : str := lit "Forecast 2024
  Question: indented, so not a question line".

Definition late_question_prompt : str := lit "Forecast 2024
Question:   Will X happen?  
[Depth 1] A (p=0.5)".

(** What [main] prints before it loads, the confirmation of each
    formatter in the order of the calls, and what [main] prints at the end. *)
Definition printed_before_loading : list str :=
  [ [newline] ++ rule;
    lit "  CREATING DPO TRAINING PRESENTATION ASSETS";
    rule ++ [newline];
    lit "📊 Loading generated training data..." ].

Definition confirmations : list str :=
  [ lit "✓ Created comparison examples: " ++ lit comparison_file;
    lit "✓ Created architecture diagram: dpo_architecture_diagram.txt";
    lit "✓ Created performance table: dpo_performance_table.txt";
    lit "✓ Created presentation slides: dpo_presentation_slides.md" ].

Definition printed_at_the_end : list str :=
  [ [newline] ++ rule;
    lit "  ✅ ALL ASSETS CREATED SUCCESSFULLY";
    rule;
    files_created_summary ].

Definition is_confirmation (line : str) : bool :=
  startswith line (lit "✓ Created").


(** The directory of [input_world] without the statistics file. *)
Definition no_statistics_world : world := {|
  files := <[samples_file := lit "[samples"]> ∅;
  stdout := [lit "an old message"]
|}.

Definition load_overflowing : str -> option Statistics :=
  load_as statistics_text overflowing_statistics.

(** * Properties *)

(** ** The text primitives on concrete inputs *)

Example lit_box : lit "a║✓📊" = [97; 9553; 10003; 128202]%N.
Proof. reflexivity. Qed.

Example split_trailing : split (lit "a
b
") newline = [lit "a"; lit "b"; []].
Proof. reflexivity. Qed.

Example replace_twice :
  replace (lit "xQuestion:yQuestion:z") (lit "Question:") [] = lit "xyz".
Proof. reflexivity. Qed.

Example strip_both : strip (lit "  a b 	") = lit "a b".
Proof. reflexivity. Qed.

Example str_of_int_neg : str_of_int (-40) = lit "-40".
Proof. reflexivity. Qed.

Example extract_question_spec_example :
  extract_question (lit "Question: Will X happen?
Other line") = lit "Will X happen?".
Proof. reflexivity. Qed.

Example extract_path_spec_example :
  extract_path (lit "Question: Q?
[Depth 1] A (p=0.5)
  [Depth 9] indented
[Depth 2] B (p=0.5)  ")
  = [lit "[Depth 1] A (p=0.5)"; lit "[Depth 2] B (p=0.5)"].
Proof. reflexivity. Qed.

Example percent_half : percent 20 40 = inr (lit "50.0").
Proof. vm_compute. reflexivity. Qed.

Example percent_third : percent 1 3 = inr (lit "33.3").
Proof. vm_compute. reflexivity. Qed.

Example percent_two_thirds : percent 2 3 = inr (lit "66.7").
Proof. vm_compute. reflexivity. Qed.

Example percent_tie : percent 1 800 = inr (lit "0.1").
Proof. vm_compute. reflexivity. Qed.

Example percent_zero_total : percent 20 0 = inl ZeroDivisionError.
Proof. vm_compute. reflexivity. Qed.

Example percent_huge : percent (2 ^ 1024) 1 = inl OverflowError.
Proof. vm_compute. reflexivity. Qed.

(** ** Text lemmas *)

Section TextFacts.

Lemma str_eqb_eq (a b : str) : str_eqb a b = true <-> a = b.
Proof.
  revert b; induction a as [|x a IH]; intros [|y b]; simpl; split;
    try congruence; try reflexivity.
  - intros H. apply andb_prop in H as [Hx Hab].
    apply N.eqb_eq in Hx. apply IH in Hab. congruence.
  - intros H. injection H as -> ->.
    rewrite N.eqb_refl. simpl. now apply IH.
Qed.

Lemma str_eqb_neq (a b : str) : str_eqb a b = false <-> a <> b.
Proof.
  rewrite <- str_eqb_eq. destruct (str_eqb a b); split; congruence.
Qed.

(** [startswith] decides being of the form [prefix ++ rest]. *)
Lemma startswith_app (s prefix : str) :
  startswith s prefix = true <-> s = prefix ++ skipn (length prefix) s.
Proof.
  revert s; induction prefix as [|p ps IH]; intros s; simpl.
  - split; intros _; reflexivity.
  - destruct s as [|c cs]; simpl.
    + split; discriminate.
    + rewrite andb_true_iff, N.eqb_eq, IH. split.
      * intros [-> Hcs]. now f_equal.
      * intros H. injection H as -> Hcs. now split.
Qed.

Lemma startswith_prefix_app (prefix rest : str) :
  startswith (prefix ++ rest) prefix = true.
Proof.
  induction prefix as [|p ps IH]; simpl; [reflexivity|].
  now rewrite N.eqb_refl.
Qed.

Lemma rstrip_cons_nonspace (c : char) (t : str) :
  isspace c = false -> rstrip (c :: t) = c :: rstrip t.
Proof.
  intros Hc. simpl. rewrite Hc. now destruct (rstrip t).
Qed.

(** Stripping keeps a prefix that holds no whitespace. *)
Lemma startswith_strip (s prefix : str) :
  List.Forall (fun c => isspace c = false) prefix ->
  startswith s prefix = true ->
  startswith (strip s) prefix = true.
Proof.
  intros Hp Hs. unfold strip.
  destruct prefix as [|p0 ps0]; [reflexivity|].
  assert (Hl : lstrip s = s).
  { destruct s as [|c cs]; [discriminate|]. simpl in Hs.
    apply andb_prop in Hs as [Hc _]. apply N.eqb_eq in Hc. subst c.
    inversion Hp as [|? ? Hsp _]; subst. simpl. now rewrite Hsp. }
  rewrite Hl. clear Hl.
  revert s Hs; generalize dependent (p0 :: ps0); intros prefix Hp.
  induction Hp as [|p ps Hsp _ IH]; intros s Hs; simpl in *.
  - reflexivity.
  - destruct s as [|c cs]; [discriminate|].
    apply andb_prop in Hs as [Hc Hcs]. apply N.eqb_eq in Hc. subst c.
    rewrite rstrip_cons_nonspace by assumption.
    simpl. rewrite N.eqb_refl. simpl. now apply IH.
Qed.

(** Dropping [length l] characters skips exactly [l]. *)
Lemma replace_from_skip (old new l rest : str) :
  replace_from old new (length l) (l ++ rest) = replace_from old new 0 rest.
Proof.
  induction l as [|c l IH]; simpl; [now destruct rest|exact IH].
Qed.

(** Replacing removes a leading occurrence and goes on behind it. *)
Lemma replace_leading (old new rest : str) :
  old <> [] ->
  replace (old ++ rest) old new = new ++ replace rest old new.
Proof.
  intros Hold. unfold replace.
  destruct old as [|c old]; [congruence|].
  cbn [app replace_from].
  change (c :: old ++ rest) with ((c :: old) ++ rest).
  rewrite startswith_prefix_app.
  replace (length (c :: old) - 1)%nat with (length old) by (simpl; lia).
  now rewrite replace_from_skip.
Qed.

End TextFacts.

(** ** Scenario-path extraction (C4) *)


Lemma extract_path_loop (lines : list str) (path : list str) :
  fold_left extract_path_step lines path
  = path ++ map strip (List.filter is_depth_line lines).
Proof.
  revert path; induction lines as [|line lines IH]; intros path; simpl.
  - now rewrite app_nil_r.
  - rewrite IH. unfold extract_path_step, is_depth_line.
    destruct (startswith line depth_prefix); simpl.
    + now rewrite <- app_assoc.
    + reflexivity.
Qed.

Lemma depth_prefix_nonspace :
  List.Forall (fun c => isspace c = false) depth_prefix.
Proof.
  unfold depth_prefix. vm_compute.
  repeat (constructor; [reflexivity|]). constructor.
Qed.

(** C4. For every prompt, [extract_path] returns exactly the lines (split
    on newline) that start with ["[Depth"], in their order of appearance,
    each stripped of surrounding whitespace; every returned string still
    starts with ["[Depth"], and no other line contributes. *)
Theorem extract_path_depth_lines (prompt : str) :
  extract_path prompt
  = map strip (List.filter is_depth_line (split prompt newline))
  /\ List.Forall (fun step => startswith step depth_prefix = true)
                 (extract_path prompt).
Proof.
  unfold extract_path. rewrite extract_path_loop. cbn [app]. split.
  - reflexivity.
  - apply List.Forall_forall. intros step Hin.
    apply in_map_iff in Hin as (line & <- & Hline).
    apply filter_In in Hline as [_ Hdepth].
    apply startswith_strip; [exact depth_prefix_nonspace|exact Hdepth].
Qed.

(** ** Question extraction (C3) *)

(** What [replace] leaves alone: a text in which [old] does not occur. *)
Lemma replace_absent (s old new : str) :
  (forall a b, s <> a ++ old ++ b) ->
  replace s old new = s.
Proof.
  unfold replace. induction s as [|c t IH]; intros Habsent; [reflexivity|].
  cbn [replace_from].
  destruct (startswith (c :: t) old) eqn:Hstart.
  - apply startswith_app in Hstart.
    exfalso. apply (Habsent [] (skipn (length old) (c :: t))). exact Hstart.
  - f_equal. apply IH. intros a b Heq.
    apply (Habsent (c :: a) b). simpl. now f_equal.
Qed.

(** The code, line by line: the line found is the one the specification
    names, but [replace] also deletes every later ["Question:"] in it. *)
Lemma extract_question_unfold (prompt : str) :
  extract_question prompt
  = match spec_first_question_line (split prompt newline) with
    | Some line =>
        strip (replace (skipn (length question_prefix) line) question_prefix [])
    | None => unknown_question
    end.
Proof.
  unfold extract_question. cbv zeta.
  induction (split prompt newline) as [|line rest IH]; [reflexivity|].
  cbn [extract_question_loop spec_first_question_line].
  destruct (startswith line question_prefix) eqn:Hstart; [|exact IH].
  apply startswith_app in Hstart.
  rewrite Hstart at 1.
  rewrite replace_leading by discriminate. reflexivity.
Qed.

(** Without a ["Question:"] line the placeholder is returned. *)
Lemma extract_question_placeholder (prompt : str) :
  List.Forall (fun line => startswith line question_prefix = false)
              (split prompt newline) ->
  extract_question prompt = unknown_question
  /\ spec_extract_question prompt = unknown_question.
Proof.
  intros Hnone.
  assert (Hfirst : spec_first_question_line (split prompt newline) = None).
  { induction Hnone as [|line rest Hline _ IH]; [reflexivity|].
    cbn [spec_first_question_line]. now rewrite Hline. }
  rewrite extract_question_unfold. unfold spec_extract_question.
  now rewrite Hfirst.
Qed.

(** Code and specification agree when ["Question:"] does not occur again
    behind the prefix of the line found. *)
Lemma extract_question_single_occurrence (prompt line : str) :
  spec_first_question_line (split prompt newline) = Some line ->
  (forall a b,
      skipn (length question_prefix) line <> a ++ question_prefix ++ b) ->
  extract_question prompt = spec_extract_question prompt.
Proof.
  intros Hline Honce.
  rewrite extract_question_unfold. unfold spec_extract_question.
  rewrite Hline. now rewrite replace_absent.
Qed.


(** C3, at a prompt whose question quotes the word ["Question:"]: the code
    deletes the quoted occurrence as well, where the specification removes
    the leading prefix only. *)
Theorem extract_question_repeated_prefix :
  extract_question quoting_prompt
  = lit "Will the ' who wins?' poll close early?"
  /\ spec_extract_question quoting_prompt
     = lit "Will the 'Question: who wins?' poll close early?"
  /\ extract_question quoting_prompt <> spec_extract_question quoting_prompt.
Proof.
  split; [|split].
  - vm_compute. reflexivity.
  - vm_compute. reflexivity.
  - vm_compute. discriminate.
Qed.

(** ** The comparison examples (C1, C9, C10) *)


Lemma build_comparison_loop (l : list (Z * Sample)) (c : comparison) :
  fold_left (fun c '(i, sample) => append_example c (example i sample)) l c
  = {| title := title c;
       subtitle := subtitle c;
       examples := examples c ++ map example_of l |}.
Proof.
  revert c; induction l as [|[i s] l IH]; intros c; simpl.
  - rewrite app_nil_r. now destruct c.
  - rewrite IH. simpl. now rewrite <- app_assoc.
Qed.

Lemma build_comparison_eq (samples : list Sample) :
  build_comparison samples
  = {| title := comparison_title;
       subtitle := comparison_subtitle;
       examples :=
         map example_of
             (enumerate (firstn 3 (List.filter wrong_prediction samples)) 1) |}.
Proof.
  unfold build_comparison. cbv zeta. now rewrite build_comparison_loop.
Qed.

Lemma length_enumerate {A} (l : list A) (start : Z) :
  length (enumerate l start) = length l.
Proof.
  revert start; induction l as [|x l IH]; intros start; simpl; [reflexivity|].
  now rewrite IH.
Qed.

Lemma firstn_In {A} (x : A) (n : nat) (l : list A) :
  In x (firstn n l) -> In x l.
Proof.
  intros Hin. rewrite <- (firstn_skipn n l). apply in_or_app. now left.
Qed.

(** The first [k] elements that pass a filter are the elements of some
    prefix that pass it. *)
Lemma firstn_filter_prefix {A} (f : A -> bool) (l : list A) (k : nat) :
  exists n, firstn k (List.filter f l) = List.filter f (firstn n l)
            /\ (length (firstn k (List.filter f l)) = k \/ n = length l).
Proof.
  revert k; induction l as [|x l IH]; intros k.
  - exists 0%nat. destruct k; simpl; auto.
  - destruct k as [|k].
    + exists 0%nat. simpl. auto.
    + simpl. destruct (f x) eqn:Hx.
      * destruct (IH k) as (n & Hn & Hfull). exists (S n).
        simpl. rewrite Hx, Hn. split; [reflexivity|].
        rewrite <- Hn. destruct Hfull as [Hk | ->]; auto.
      * destruct (IH (S k)) as (n & Hn & Hfull). exists (S n).
        simpl. rewrite Hx. split; [exact Hn|].
        destruct Hfull as [Hk | ->]; auto.
Qed.

Lemma wrong_prediction_true (s : Sample) :
  wrong_prediction s = true
  <-> predictedOutcome (metadata s) <> actualOutcome (metadata s).
Proof.
  unfold wrong_prediction. rewrite negb_true_iff. apply str_eqb_neq.
Qed.

Lemma wrong_prediction_false (s : Sample) :
  wrong_prediction s = false
  <-> predictedOutcome (metadata s) = actualOutcome (metadata s).
Proof.
  unfold wrong_prediction. rewrite negb_false_iff. apply str_eqb_eq.
Qed.

Lemma filter_wrong_nil (samples : list Sample) :
  List.Forall
    (fun s => predictedOutcome (metadata s) = actualOutcome (metadata s))
    samples ->
  List.filter wrong_prediction samples = [].
Proof.
  induction 1 as [|s samples Hs _ IH]; [reflexivity|].
  simpl. apply wrong_prediction_false in Hs. now rewrite Hs.
Qed.

Lemma filter_wrong_insert (before after : list Sample) (s : Sample) :
  predictedOutcome (metadata s) = actualOutcome (metadata s) ->
  List.filter wrong_prediction (before ++ s :: after)
  = List.filter wrong_prediction (before ++ after).
Proof.
  intros Hs. rewrite !List.filter_app. simpl.
  apply wrong_prediction_false in Hs. now rewrite Hs.
Qed.

Lemma build_comparison_ext (samples1 samples2 : list Sample) :
  List.filter wrong_prediction samples1 = List.filter wrong_prediction samples2 ->
  build_comparison samples1 = build_comparison samples2.
Proof.
  intros Heq. rewrite !build_comparison_eq. now rewrite Heq.
Qed.

(** What a call of [create_comparison_examples] does to the world. *)
Lemma create_comparison_examples_run
    (json_dump : json -> str) (samples : list Sample)
    (output_file : string) (w : world) :
  create_comparison_examples json_dump samples output_file w
  = ({| files :=
          <[output_file :=
              json_dump (comparison_json (build_comparison samples))]>
            (files w);
        stdout :=
          stdout w
          ++ [lit "✓ Created comparison examples: " ++ lit output_file] |},
     inr (build_comparison samples)).
Proof. reflexivity. Qed.

(** C1. For every array of samples the call succeeds, the written document
    holds at most three examples, and they are built, numbered from 1, from
    the first (up to three) samples whose predicted outcome differs from
    the actual one, in input order: the selected samples are exactly the
    wrongly predicted samples of a prefix of the input, three of them
    unless the whole input has fewer. *)
Theorem comparison_examples_first_three_wrong
    (json_dump : json -> str) (samples : list Sample)
    (output_file : string) (w : world) :
  exists w' c,
    create_comparison_examples json_dump samples output_file w = (w', inr c)
    /\ files w' !! output_file = Some (json_dump (comparison_json c))
    /\ examples c
       = map example_of
             (enumerate (firstn 3 (List.filter wrong_prediction samples)) 1)
    /\ length (examples c)
       = Nat.min 3 (length (List.filter wrong_prediction samples))
    /\ (length (examples c) <= 3)%nat
    /\ List.Forall
         (fun s => predictedOutcome (metadata s) <> actualOutcome (metadata s))
         (firstn 3 (List.filter wrong_prediction samples))
    /\ exists n,
         firstn 3 (List.filter wrong_prediction samples)
         = List.filter wrong_prediction (firstn n samples)
         /\ (length (examples c) = 3%nat \/ n = length samples).
Proof.
  rewrite create_comparison_examples_run.
  eexists _, _. split; [reflexivity|].
  rewrite build_comparison_eq. cbn [files examples].
  assert (Hlen : length
            (map example_of
               (enumerate (firstn 3 (List.filter wrong_prediction samples)) 1))
          = Nat.min 3 (length (List.filter wrong_prediction samples))).
  { now rewrite length_map, length_enumerate, length_firstn. }
  split; [apply lookup_insert_eq|].
  split; [reflexivity|].
  split; [exact Hlen|].
  split; [rewrite Hlen; apply Nat.le_min_l|].
  split.
  - apply List.Forall_forall. intros s Hin.
    apply firstn_In in Hin.
    apply filter_In in Hin as [_ Hwrong].
    now apply wrong_prediction_true.
  - destruct (firstn_filter_prefix wrong_prediction samples 3)
      as (n & Hn & Hfull).
    exists n. split; [exact Hn|].
    rewrite length_map, length_enumerate. exact Hfull.
Qed.

(** C9. Two sample arrays with the same subsequence of wrongly predicted
    samples give the same run of [create_comparison_examples]: the same
    document in the same file, the same message and the same result. *)
Theorem comparison_depends_on_wrong_only
    (json_dump : json -> str) (samples1 samples2 : list Sample)
    (output_file : string) (w : world)
    (Hsame : List.filter wrong_prediction samples1
             = List.filter wrong_prediction samples2) :
  create_comparison_examples json_dump samples1 output_file w
  = create_comparison_examples json_dump samples2 output_file w.
Proof.
  rewrite !create_comparison_examples_run.
  now rewrite (build_comparison_ext samples1 samples2 Hsame).
Qed.

Lemma comparison_depends_on_wrong_only_witness :
  List.filter wrong_prediction [right_sample; wrong_sample; right_sample]
  = List.filter wrong_prediction [wrong_sample]
  /\ create_comparison_examples compact_dump
       [right_sample; wrong_sample; right_sample] comparison_file empty_world
     = create_comparison_examples compact_dump
         [wrong_sample] comparison_file empty_world.
Proof.
  split.
  - vm_compute. reflexivity.
  - apply (comparison_depends_on_wrong_only compact_dump
             [right_sample; wrong_sample; right_sample] [wrong_sample]).
    vm_compute. reflexivity.
Defined.

(** Inserting (or, read from right to left, removing) a correctly
    predicted sample anywhere does not change the run. *)
Lemma comparison_ignores_right_prediction
    (json_dump : json -> str) (before after : list Sample) (s : Sample)
    (output_file : string) (w : world) :
  predictedOutcome (metadata s) = actualOutcome (metadata s) ->
  create_comparison_examples json_dump (before ++ s :: after) output_file w
  = create_comparison_examples json_dump (before ++ after) output_file w.
Proof.
  intros Hs. rewrite !create_comparison_examples_run.
  now rewrite (build_comparison_ext _ _ (filter_wrong_insert before after s Hs)).
Qed.

(** C10. When every sample is predicted correctly (in particular when
    there is no sample), the call succeeds and replaces the output file by
    the document with the fixed title, the fixed subtitle and an empty
    list of examples. *)
Theorem comparison_without_wrong_predictions
    (json_dump : json -> str) (samples : list Sample)
    (output_file : string) (w : world)
    (Hright : List.Forall
       (fun s => predictedOutcome (metadata s) = actualOutcome (metadata s))
       samples) :
  exists w',
    create_comparison_examples json_dump samples output_file w
    = (w', inr {| title := comparison_title;
                  subtitle := comparison_subtitle;
                  examples := [] |})
    /\ files w' !! output_file
       = Some (json_dump
                 (JObj [(lit "title", JStr comparison_title);
                        (lit "subtitle", JStr comparison_subtitle);
                        (lit "examples", JArr [])])).
Proof.
  rewrite create_comparison_examples_run, build_comparison_eq.
  rewrite (filter_wrong_nil samples Hright).
  eexists. split; [reflexivity|].
  cbn [files]. apply lookup_insert_eq.
Qed.

Lemma comparison_without_wrong_predictions_witness :
  List.Forall
    (fun s => predictedOutcome (metadata s) = actualOutcome (metadata s))
    [right_sample; right_sample]
  /\ exists w',
       create_comparison_examples compact_dump [right_sample; right_sample]
         comparison_file empty_world
       = (w', inr {| title := comparison_title;
                     subtitle := comparison_subtitle;
                     examples := [] |})
       /\ files w' !! comparison_file
          = Some (compact_dump
                    (JObj [(lit "title", JStr comparison_title);
                           (lit "subtitle", JStr comparison_subtitle);
                           (lit "examples", JArr [])])).
Proof.
  assert (Hright : List.Forall
    (fun s => predictedOutcome (metadata s) = actualOutcome (metadata s))
    [right_sample; right_sample]).
  { repeat constructor. }
  split; [exact Hright|].
  apply (comparison_without_wrong_predictions compact_dump
           [right_sample; right_sample] comparison_file empty_world Hright).
Defined.

Example comparison_without_samples :
  files (fst (create_comparison_examples compact_dump [] comparison_file
                empty_world)) !! comparison_file
  = Some (lit "{" ++ dq ++ lit "title" ++ dq
          ++ lit ":" ++ dq ++ lit "DPO Training: Learning from Mistakes" ++ dq
          ++ dq ++ lit "subtitle" ++ dq ++ lit ":" ++ dq
          ++ lit "Teaching the model to prefer correct predictions over incorrect ones"
          ++ dq ++ dq ++ lit "examples" ++ dq ++ lit ":[]}").
Proof. vm_compute. reflexivity. Qed.

(** ** Binary64 rounding and the rendered percentages (C2) *)

(** [digits2_pos p] is the number of binary digits of [p]. *)
Lemma digits2_pos_bounds (p : positive) :
  2 ^ (Zpos (digits2_pos p) - 1) <= Zpos p < 2 ^ Zpos (digits2_pos p).
Proof.
  induction p as [p IH | p IH |]; cbn [digits2_pos].
  - rewrite Pos2Z.inj_succ. change (Zpos p~1) with (2 * Zpos p + 1).
    replace (Z.succ (Zpos (digits2_pos p)) - 1)
      with (Z.succ (Zpos (digits2_pos p) - 1)) by lia.
    rewrite !Z.pow_succ_r by lia.
    generalize dependent (2 ^ (Zpos (digits2_pos p) - 1)).
    generalize dependent (2 ^ Zpos (digits2_pos p)). intros; lia.
  - rewrite Pos2Z.inj_succ. change (Zpos p~0) with (2 * Zpos p).
    replace (Z.succ (Zpos (digits2_pos p)) - 1)
      with (Z.succ (Zpos (digits2_pos p) - 1)) by lia.
    rewrite !Z.pow_succ_r by lia.
    generalize dependent (2 ^ (Zpos (digits2_pos p) - 1)).
    generalize dependent (2 ^ Zpos (digits2_pos p)). intros; lia.
  - simpl. lia.
Qed.

(** The number of binary digits is determined by the bounds. *)
Lemma digits2_pos_unique (p : positive) (d : Z) :
  2 ^ (d - 1) <= Zpos p < 2 ^ d -> Zpos (digits2_pos p) = d.
Proof.
  intros [Hlo Hhi]. pose proof (digits2_pos_bounds p) as [Hlo' Hhi'].
  assert (Hd : 0 < d).
  { destruct (Z.ltb_spec 0 d) as [|Hle]; [assumption|].
    exfalso. 
    assert (2 ^ d <= 1).
    { destruct (Z.eq_dec d 0) as [->|]; [simpl; lia|].
      rewrite Z.pow_neg_r by lia. lia. }
    lia. }
  destruct (Z.lt_trichotomy (Zpos (digits2_pos p)) d) as [Hlt | [Heq | Hgt]].
  - exfalso.
    assert (2 ^ Zpos (digits2_pos p) <= 2 ^ (d - 1))
      by (apply Z.pow_le_mono_r; lia).
    lia.
  - exact Heq.
  - exfalso.
    assert (2 ^ d <= 2 ^ (Zpos (digits2_pos p) - 1))
      by (apply Z.pow_le_mono_r; lia).
    lia.
Qed.

(** Shifting right halves the mantissa. *)
Lemma shr_1_div2 (mrs : shr_record) :
  0 <= shr_m mrs -> shr_m (shr_1 mrs) = shr_m mrs / 2.
Proof.
  destruct mrs as [m r s]. cbn [shr_m]. intros Hm.
  rewrite <- Z.div2_div.
  destruct m as [|[p|p|]|p]; try reflexivity. lia.
Qed.

(** [p] shifts divide it by [2^p]. *)
Lemma iter_shr_1 (p : positive) (mrs : shr_record) :
  0 <= shr_m mrs ->
  shr_m (SpecFloat.iter_pos shr_1 p mrs) = shr_m mrs / 2 ^ Zpos p.
Proof.
  revert mrs; induction p as [p IH | p IH |]; intros mrs Hm; cbn [SpecFloat.iter_pos].
  - assert (H1 : 0 <= shr_m (shr_1 mrs)).
    { rewrite shr_1_div2 by assumption. apply Z.div_pos; lia. }
    assert (H2 : 0 <= shr_m (SpecFloat.iter_pos shr_1 p (shr_1 mrs))).
    { rewrite IH by assumption. apply Z.div_pos; [assumption|].
      apply Z.pow_pos_nonneg; lia. }
    rewrite IH, IH, shr_1_div2 by assumption.
    rewrite !Z.div_div by (try apply Z.pow_pos_nonneg; lia).
    f_equal. change (Zpos p~1) with (2 * Zpos p + 1).
    replace (2 * Zpos p + 1) with (1 + Zpos p + Zpos p) by lia.
    rewrite !Z.pow_add_r by lia. lia.
  - assert (H2 : 0 <= shr_m (SpecFloat.iter_pos shr_1 p mrs)).
    { rewrite IH by assumption. apply Z.div_pos; [assumption|].
      apply Z.pow_pos_nonneg; lia. }
    rewrite IH, IH by assumption.
    rewrite !Z.div_div by (try apply Z.pow_pos_nonneg; lia).
    f_equal. change (Zpos p~0) with (2 * Zpos p).
    replace (2 * Zpos p) with (Zpos p + Zpos p) by lia.
    rewrite !Z.pow_add_r by lia. lia.
  - rewrite shr_1_div2 by assumption. reflexivity.
Qed.

(** In the normal range a number of magnitude [2^e] has its last digit
    at [e - 53]. *)
Lemma fexp_normal (e : Z) : -1021 <= e -> fexp 53 1024 e = e - 53.
Proof. unfold fexp, emin. lia. Qed.

Lemma shr_m_of_loc (m : Z) (l : location) :
  shr_m (shr_record_of_loc m l) = m.
Proof. destruct l as [|[]]; reflexivity. Qed.

(** The first step of rounding, for a mantissa of at least 53 digits in
    the normal range: the digits beyond the 53rd are shifted out. *)
Lemma shr_fexp_normal (m : positive) (e : Z) (l : location) :
  53 <= Zpos (digits2_pos m) ->
  -1021 <= Zpos (digits2_pos m) + e ->
  exists mrs,
    shr_fexp 53 1024 (Zpos m) e l = (mrs, e + (Zpos (digits2_pos m) - 53))
    /\ shr_m mrs = Zpos m / 2 ^ (Zpos (digits2_pos m) - 53)
    /\ (Zpos (digits2_pos m) = 53 -> mrs = shr_record_of_loc (Zpos m) l).
Proof.
  intros Hdg Hnormal. unfold shr_fexp. cbn [Zdigits2].
  rewrite fexp_normal by assumption.
  replace (Zpos (digits2_pos m) + e - 53 - e)
    with (Zpos (digits2_pos m) - 53) by lia.
  destruct (Zpos (digits2_pos m) - 53) as [|n|n] eqn:Hn; cbn [shr].
  - eexists. split; [f_equal; lia|]. split; [|reflexivity].
    rewrite shr_m_of_loc. cbn. now rewrite Z.div_1_r.
  - eexists. split; [reflexivity|]. split; [|lia].
    rewrite iter_shr_1 by (rewrite shr_m_of_loc; lia).
    now rewrite shr_m_of_loc.
  - lia.
Qed.

Lemma round_nearest_even_cases (m : Z) (l : location) :
  round_nearest_even m l = m \/ round_nearest_even m l = m + 1.
Proof.
  destruct l as [|[]]; cbn [round_nearest_even]; auto.
  destruct (Z.even m); auto.
Qed.

Lemma loc_of_shr_record_of_loc (m : Z) (l : location) :
  loc_of_shr_record (shr_record_of_loc m l) = l.
Proof. destruct l as [|[]]; reflexivity. Qed.

(** Rounding a positive mantissa of at least 53 digits whose magnitude is
    in the normal range and below the overflow threshold: the result is a
    finite number whose mantissa is the truncated one or its successor. *)
Lemma binary_round_aux_normal (sx : bool) (mx : positive) (ex : Z) (lx : location) :
  53 <= Zpos (digits2_pos mx) ->
  -1021 <= Zpos (digits2_pos mx) + ex <= 1023 ->
  exists (m : positive) (e m' : Z),
    binary_round_aux 53 1024 sx (Zpos mx) ex lx = S754_finite sx m e
    /\ m' = Zpos mx / 2 ^ (Zpos (digits2_pos mx) - 53)
    /\ 2 ^ 52 <= m' < 2 ^ 53
    /\ 2 ^ 52 <= Zpos m < 2 ^ 53
    /\ ((e = ex + (Zpos (digits2_pos mx) - 53)
         /\ (Zpos m = m' \/ Zpos m = m' + 1))
        \/ (e = ex + (Zpos (digits2_pos mx) - 53) + 1
            /\ Zpos m = 2 ^ 52 /\ m' + 1 = 2 ^ 53))
    /\ (Zpos (digits2_pos mx) = 53 -> lx = loc_Exact ->
        m = mx /\ e = ex).
Proof.
  intros Hdg [Hlo Hhi].
  set (n := Zpos (digits2_pos mx) - 53).
  assert (Hn : 0 <= n) by (unfold n; lia).
  pose proof (digits2_pos_bounds mx) as [Hmlo Hmhi].
  assert (Hpow : 0 < 2 ^ n) by (apply Z.pow_pos_nonneg; lia).
  assert (Hm' : 2 ^ 52 <= Zpos mx / 2 ^ n < 2 ^ 53).
  { replace (Zpos (digits2_pos mx) - 1) with (52 + n) in Hmlo by (unfold n; lia).
    replace (Zpos (digits2_pos mx)) with (53 + n) in Hmhi by (unfold n; lia).
    rewrite Z.pow_add_r in Hmlo, Hmhi by lia. split.
    - apply Z.div_le_lower_bound; lia.
    - apply Z.div_lt_upper_bound; lia. }
  unfold binary_round_aux.
  destruct (shr_fexp_normal mx ex lx Hdg Hlo) as (mrs1 & -> & Hm1 & Hexact1).
  fold n in Hm1 |- *.
  set (m1 := round_nearest_even (shr_m mrs1) (loc_of_shr_record mrs1)).
  assert (Hm1cases : m1 = Zpos mx / 2 ^ n \/ m1 = Zpos mx / 2 ^ n + 1).
  { unfold m1. rewrite <- Hm1. apply round_nearest_even_cases. }
  assert (Hm1pos : 0 < m1) by lia.
  destruct m1 as [|p1|p1] eqn:Hp1; try lia.
  destruct (Z.eq_dec (Zpos p1) (2 ^ 53)) as [Hcarry | Hnocarry].
  - (* the mantissa was all ones and is rounded up: one more shift *)
    assert (Hd1 : Zpos (digits2_pos p1) = 54).
    { apply digits2_pos_unique. rewrite Hcarry. simpl. lia. }
    destruct (shr_fexp_normal p1 (ex + n) loc_Exact) as (mrs2 & -> & Hm2 & _);
      [lia | lia |].
    rewrite Hd1 in Hm2 |- *. rewrite Hcarry in Hm2.
    change (2 ^ 53 / 2 ^ (54 - 53)) with (2 ^ 52) in Hm2.
    rewrite Hm2. change (2 ^ 52) with (Zpos (2 ^ 52)%positive) at 1.
    cbv iota beta.
    destruct (Z.leb_spec (ex + n + (54 - 53)) (1024 - 53)) as [_ | Hbad]; [|lia].
    eexists _, _, _. split; [reflexivity|]. split; [reflexivity|].
    split; [exact Hm'|]. split; [simpl; lia|]. split.
    + right. split; [lia|]. split; [reflexivity|]. lia.
    + intros Hd Hl. exfalso.
      assert (n = 0) by (unfold n; lia).
      assert (mrs1 = shr_record_of_loc (Zpos mx) lx) by auto.
      subst mrs1 lx. cbn in Hp1. rewrite Hd in Hmhi. lia.
  - assert (Hd1 : Zpos (digits2_pos p1) = 53).
    { apply digits2_pos_unique. change (2 ^ (53 - 1)) with (2 ^ 52). lia. }
    destruct (shr_fexp_normal p1 (ex + n) loc_Exact) as (mrs2 & -> & Hm2 & _);
      [lia | lia |].
    rewrite Hd1 in Hm2 |- *. 
    change (2 ^ (53 - 53)) with 1 in Hm2. rewrite Z.div_1_r in Hm2.
    rewrite Hm2. cbv iota beta.
    destruct (Z.leb_spec (ex + n + (53 - 53)) (1024 - 53)) as [_ | Hbad]; [|lia].
    eexists _, _, _. split; [reflexivity|]. split; [reflexivity|].
    split; [exact Hm'|]. split; [lia|]. split.
    + left. split; [lia|]. lia.
    + intros Hd Hl.
      assert (Hn0 : n = 0) by (unfold n; lia).
      assert (Hmrs : mrs1 = shr_record_of_loc (Zpos mx) lx) by auto.
      subst mrs1 lx. cbn in Hp1. split; [congruence|lia].
Qed.

(** Appending [k] zero digits multiplies by [2^k]. *)
Lemma pos_iter_xO (p k : positive) :
  Zpos (Pos.iter xO p k) = Zpos p * 2 ^ Zpos k.
Proof.
  induction k as [|k IH] using Pos.peano_ind.
  - change (Zpos (Pos.iter xO p 1)) with (2 * Zpos p). change (2 ^ 1) with 2. lia.
  - rewrite Pos.iter_succ, Pos2Z.inj_succ, Z.pow_succ_r by lia.
    change (Zpos (Pos.iter xO p k)~0) with (2 * Zpos (Pos.iter xO p k)).
    rewrite IH. lia.
Qed.

(** [float(c)] is exact for a positive [int] below [2^53]. *)
Lemma of_int_exact (c : Z) :
  0 < c < 2 ^ 53 ->
  exists (m : positive) (e : Z),
    Float.of_int c = inr (S754_finite false m e)
    /\ 2 ^ 52 <= Zpos m < 2 ^ 53
    /\ -52 <= e <= 0
    /\ Zpos m = c * 2 ^ (- e).
Proof.
  intros [Hpos Hlt]. destruct c as [|pc|pc]; try lia.
  unfold Float.of_int, Float.prec, Float.emax.
  cbn [binary_normalize]. unfold binary_round.
  pose proof (digits2_pos_bounds pc) as [Hlo Hhi].
  set (d := Zpos (digits2_pos pc)) in *.
  assert (Hd : 1 <= d <= 53).
  { split; [unfold d; lia|].
    destruct (Z.le_gt_cases d 53) as [|Hgt]; [assumption|]. exfalso.
    assert (2 ^ 53 <= 2 ^ (d - 1)) by (apply Z.pow_le_mono_r; lia). lia. }
  rewrite Z.add_0_r, fexp_normal by lia.
  unfold shl_align. rewrite Z.sub_0_r.
  destruct (d - 53) as [|k|k] eqn:Hk; try lia.
  - (* 53 digits already *)
    destruct (binary_round_aux_normal false pc 0 loc_Exact)
      as (m & e & m' & -> & _ & _ & Hm & _ & Hexact); fold d; try lia.
    destruct Hexact as [-> ->]; [lia | reflexivity |].
    exists pc, 0. split; [reflexivity|]. split; [exact Hm|].
    split; [lia|]. simpl. lia.
  - (* shifted left to 53 digits *)
    set (mz := Pos.iter xO pc k).
    assert (Hmz : Zpos mz = Zpos pc * 2 ^ Zpos k) by apply pos_iter_xO.
    assert (Hbounds : 2 ^ 52 <= Zpos mz < 2 ^ 53).
    { rewrite Hmz.
      assert (H52 : 2 ^ 52 = 2 ^ (d - 1) * 2 ^ Zpos k).
      { rewrite <- Z.pow_add_r by lia. f_equal. lia. }
      assert (H53 : 2 ^ 53 = 2 ^ d * 2 ^ Zpos k).
      { rewrite <- Z.pow_add_r by lia. f_equal. lia. }
      rewrite H52, H53.
      assert (0 < 2 ^ Zpos k) by (apply Z.pow_pos_nonneg; lia).
      split; [apply Z.mul_le_mono_nonneg_r; lia|].
      apply Z.mul_lt_mono_pos_r; lia. }
    assert (Hdz : Zpos (digits2_pos mz) = 53).
    { apply digits2_pos_unique. exact Hbounds. }
    destruct (binary_round_aux_normal false mz (Zneg k) loc_Exact)
      as (m & e & m' & -> & _ & _ & Hm & _ & Hexact); try lia.
    destruct Hexact as [-> ->]; [lia | reflexivity |].
    exists mz, (Zneg k). split; [reflexivity|]. split; [exact Hbounds|].
    split; [lia|]. rewrite Hmz. reflexivity.
Qed.

(** *** Values as real numbers *)

Lemma IZR_pow2 (n : Z) : 0 <= n -> IZR (2 ^ n) = powerRZ 2 n.
Proof.
  destruct n as [|p|p]; intros Hn; try lia.
  - simpl. reflexivity.
  - change (2 ^ Zpos p) with (Z.pow_pos 2 p). apply Zpower_pos_powerRZ.
Qed.

Lemma powerRZ_2_pos (e : Z) : (0 < powerRZ 2 e)%R.
Proof. apply powerRZ_lt. lra. Qed.

Lemma F2R_scale (m e n : Z) : 0 <= n -> F2R (m * 2 ^ n) e = F2R m (e + n).
Proof.
  intros Hn. unfold F2R.
  rewrite mult_IZR, IZR_pow2, powerRZ_add by (assumption || lra). ring.
Qed.

Lemma F2R_le (m1 m2 e : Z) : m1 <= m2 -> (F2R m1 e <= F2R m2 e)%R.
Proof.
  intros Hle. unfold F2R. apply Rmult_le_compat_r.
  - left. apply powerRZ_2_pos.
  - now apply IZR_le.
Qed.

Lemma F2R_exact (c m e : Z) : e <= 0 -> m = c * 2 ^ (- e) -> F2R m e = IZR c.
Proof.
  intros He ->. rewrite F2R_scale by lia. unfold F2R.
  replace (e + - e) with 0 by lia. simpl. ring.
Qed.

(** Rounding stays within one unit in the last place, which is a relative
    error of at most [2^-52] in the normal range. *)
Lemma binary_round_aux_error
    (sx : bool) (mx : positive) (ex : Z) (lx : location) (V : R) :
  53 <= Zpos (digits2_pos mx) ->
  -1021 <= Zpos (digits2_pos mx) + ex <= 1023 ->
  (F2R (Zpos mx) ex <= V <= F2R (Zpos mx + 1) ex)%R ->
  exists (m : positive) (e : Z),
    binary_round_aux 53 1024 sx (Zpos mx) ex lx = S754_finite sx m e
    /\ 2 ^ 52 <= Zpos m < 2 ^ 53
    /\ ex + (Zpos (digits2_pos mx) - 53) <= e
       <= ex + (Zpos (digits2_pos mx) - 53) + 1
    /\ ((1 - eps) * V <= F2R (Zpos m) e <= (1 + eps) * V)%R.
Proof.
  intros Hdg Hrange [HVlo HVhi].
  destruct (binary_round_aux_normal sx mx ex lx Hdg Hrange)
    as (m & e & m' & Hround & Hm' & Hm'b & Hmb & Hcases & _).
  exists m, e. split; [exact Hround|]. split; [exact Hmb|].
  set (n := Zpos (digits2_pos mx) - 53) in *.
  assert (Hn : 0 <= n) by (unfold n; lia).
  assert (Hpow : 0 < 2 ^ n) by (apply Z.pow_pos_nonneg; lia).
  assert (Hfloor : m' * 2 ^ n <= Zpos mx /\ Zpos mx + 1 <= (m' + 1) * 2 ^ n).
  { subst m'. pose proof (Z.mul_div_le (Zpos mx) (2 ^ n) Hpow).
    pose proof (Z.mul_succ_div_gt (Zpos mx) (2 ^ n) Hpow). lia. }
  destruct Hfloor as [Hfl Hceil].
  set (u := powerRZ 2 (ex + n)).
  assert (Hu : (0 < u)%R) by apply powerRZ_2_pos.
  assert (Hlo : (IZR m' * u <= V)%R).
  { change (IZR m' * u)%R with (F2R m' (ex + n)).
    rewrite <- F2R_scale by assumption.
    eapply Rle_trans; [apply F2R_le; exact Hfl | exact HVlo]. }
  assert (Hhi : (V <= (IZR m' + 1) * u)%R).
  { replace (IZR m' + 1)%R with (IZR (m' + 1)) by (rewrite plus_IZR; reflexivity).
    change (IZR (m' + 1) * u)%R with (F2R (m' + 1) (ex + n)).
    rewrite <- F2R_scale by assumption.
    eapply Rle_trans; [exact HVhi | apply F2R_le; exact Hceil]. }
  assert (Hres : (IZR m' * u <= F2R (Zpos m) e <= (IZR m' + 1) * u)%R).
  { destruct Hcases as [[-> [-> | ->]] | (-> & -> & Hcarry)]; unfold F2R; fold u.
    - lra.
    - rewrite plus_IZR. lra.
    - replace (ex + n + 1) with (1 + (ex + n)) by lia.
      rewrite powerRZ_add by lra. fold u.
      assert (Hm'R : (IZR m' + 1 = IZR (2 ^ 53))%R).
      { rewrite <- Hcarry, plus_IZR. reflexivity. }
      rewrite Hm'R. change (powerRZ 2 1) with (2 * 1)%R.
      change (2 ^ 52) with 4503599627370496.
      change (2 ^ 53) with 9007199254740992.
      assert (0 <= IZR m')%R by (apply IZR_le; lia). 
      assert (0 < IZR 4503599627370496)%R by (apply IZR_lt; lia).
      assert (IZR 9007199254740992 = 2 * IZR 4503599627370496)%R.
      { rewrite <- mult_IZR. reflexivity. }
      nra. }
  split; [lia|].
  assert (Hulp : (u <= eps * V)%R).
  { assert (H52 : (IZR (2 ^ 52) <= IZR m')%R) by (apply IZR_le; lia).
    assert (Hpos52 : (0 < IZR (2 ^ 52))%R) by (apply IZR_lt; simpl; lia).
    unfold eps.
    apply Rmult_le_reg_l with (IZR (2 ^ 52)); [exact Hpos52|].
    rewrite <- Rmult_assoc, Rinv_r, Rmult_1_l by lra.
    eapply Rle_trans; [|exact Hlo].
    apply Rmult_le_compat_r; lra. }
  lra.
Qed.

Lemma F2R_mul (a e b f : Z) : (F2R a e * F2R b f)%R = F2R (a * b) (e + f).
Proof.
  unfold F2R. rewrite mult_IZR, powerRZ_add by lra. ring.
Qed.

Lemma F2R_pos (m e : Z) : 0 < m -> (0 < F2R m e)%R.
Proof.
  intros Hm. unfold F2R. apply Rmult_lt_0_compat.
  - now apply IZR_lt.
  - apply powerRZ_2_pos.
Qed.

Lemma eps_bounds : (0 < eps < 1)%R.
Proof.
  unfold eps. change (2 ^ 52) with 4503599627370496. split.
  - apply Rinv_0_lt_compat. lra.
  - rewrite <- Rinv_1. apply Rinv_lt_contravar; lra.
Qed.

Lemma digits2_pos_range (p : positive) (lo hi : Z) :
  0 <= lo -> 2 ^ lo <= Zpos p < 2 ^ hi ->
  lo + 1 <= Zpos (digits2_pos p) <= hi.
Proof.
  intros Hlo [Hge Hlt]. pose proof (digits2_pos_bounds p) as [Hdlo Hdhi].
  split.
  - destruct (Z.le_gt_cases (lo + 1) (Zpos (digits2_pos p))) as [|Hgt];
      [assumption|]. exfalso.
    assert (2 ^ Zpos (digits2_pos p) <= 2 ^ lo)
      by (apply Z.pow_le_mono_r; lia).
    lia.
  - destruct (Z.le_gt_cases (Zpos (digits2_pos p)) hi) as [|Hgt];
      [assumption|]. exfalso.
    assert (Hhi : 0 <= hi).
    { destruct (Z.le_gt_cases 0 hi) as [|Hneg]; [assumption|].
      rewrite Z.pow_neg_r in Hlt by lia. lia. }
    assert (2 ^ hi <= 2 ^ (Zpos (digits2_pos p) - 1))
      by (apply Z.pow_le_mono_r; lia).
    lia.
Qed.

(** Division of two positive normal numbers, away from the ends of the
    exponent range. *)
Lemma SFdiv_error (m1 m2 : positive) (e1 e2 : Z) :
  2 ^ 52 <= Zpos m1 < 2 ^ 53 ->
  2 ^ 52 <= Zpos m2 < 2 ^ 53 ->
  -960 <= e1 - e2 <= 960 ->
  exists (m : positive) (e : Z),
    SFdiv 53 1024 (S754_finite false m1 e1) (S754_finite false m2 e2)
    = S754_finite false m e
    /\ 2 ^ 52 <= Zpos m < 2 ^ 53
    /\ e1 - e2 - 53 <= e <= e1 - e2 - 51
    /\ ((1 - eps) * (F2R (Zpos m1) e1 / F2R (Zpos m2) e2) <= F2R (Zpos m) e
        <= (1 + eps) * (F2R (Zpos m1) e1 / F2R (Zpos m2) e2))%R.
Proof.
  intros Hm1 Hm2 He.
  assert (Hd1 : Zpos (digits2_pos m1) = 53) by (now apply digits2_pos_unique).
  assert (Hd2 : Zpos (digits2_pos m2) = 53) by (now apply digits2_pos_unique).
  unfold SFdiv, SFdiv_core_binary. cbn [Zdigits2 xorb]. cbv zeta.
  rewrite Hd1, Hd2, fexp_normal by lia.
  rewrite Z.min_l by lia.
  replace (e1 - e2 - (53 + e1 - (53 + e2) - 53)) with 53 by lia.
  cbv iota beta.
  rewrite Z.shiftl_mul_pow2 by lia.
  destruct (Z.div_eucl (Zpos m1 * 2 ^ 53) (Zpos m2)) as [q r] eqn:Hqr.
  assert (Hq : q = Zpos m1 * 2 ^ 53 / Zpos m2).
  { unfold Z.div. now rewrite Hqr. }
  clear Hqr.
  assert (Hqlo : 2 ^ 52 <= q).
  { rewrite Hq. apply Z.div_le_lower_bound; lia. }
  assert (Hqhi : q < 2 ^ 54).
  { rewrite Hq. apply Z.div_lt_upper_bound; lia. }
  assert (Hfloor : Zpos m2 * q <= Zpos m1 * 2 ^ 53 < Zpos m2 * (q + 1)).
  { rewrite Hq. split.
    - apply Z.mul_div_le. lia.
    - pose proof (Z.mul_succ_div_gt (Zpos m1 * 2 ^ 53) (Zpos m2)). lia. }
  destruct q as [|pq|pq]; try lia.
  pose proof (digits2_pos_range pq 52 54 ltac:(lia) ltac:(lia)) as Hdq.
  set (X := F2R (Zpos m1) e1). set (Y := F2R (Zpos m2) e2).
  assert (HY : (0 < Y)%R) by (apply F2R_pos; lia).
  assert (HX : X = F2R (Zpos m1 * 2 ^ 53) (e1 - 53)).
  { rewrite F2R_scale by lia. unfold X. f_equal. lia. }
  destruct (binary_round_aux_error false pq (53 + e1 - (53 + e2) - 53)
              (new_location (Zpos m2) r) (X / Y)%R)
    as (m & e & Hround & Hmb & Heb & Herr); try lia.
  { split.
    - apply Rmult_le_reg_r with Y; [exact HY|].
      unfold Rdiv. rewrite Rmult_assoc, Rinv_l, Rmult_1_r by lra.
      unfold Y. rewrite F2R_mul, HX.
      replace (53 + e1 - (53 + e2) - 53 + e2) with (e1 - 53) by lia.
      apply F2R_le. lia.
    - apply Rmult_le_reg_r with Y; [exact HY|].
      unfold Rdiv. rewrite Rmult_assoc, Rinv_l, Rmult_1_r by lra.
      unfold Y. rewrite F2R_mul, HX.
      replace (53 + e1 - (53 + e2) - 53 + e2) with (e1 - 53) by lia.
      apply F2R_le. lia. }
  exists m, e. split; [exact Hround|]. split; [exact Hmb|].
  split; [lia|exact Herr].
Qed.

(** Multiplication of two positive normal numbers, away from the ends of
    the exponent range. *)
Lemma SFmul_error (m1 m2 : positive) (e1 e2 : Z) :
  2 ^ 52 <= Zpos m1 < 2 ^ 53 ->
  2 ^ 52 <= Zpos m2 < 2 ^ 53 ->
  -1000 <= e1 + e2 <= 800 ->
  exists (m : positive) (e : Z),
    SFmul 53 1024 (S754_finite false m1 e1) (S754_finite false m2 e2)
    = S754_finite false m e
    /\ 2 ^ 52 <= Zpos m < 2 ^ 53
    /\ e1 + e2 + 52 <= e <= e1 + e2 + 54
    /\ ((1 - eps) * (F2R (Zpos m1) e1 * F2R (Zpos m2) e2) <= F2R (Zpos m) e
        <= (1 + eps) * (F2R (Zpos m1) e1 * F2R (Zpos m2) e2))%R.
Proof.
  intros Hm1 Hm2 He.
  unfold SFmul. cbn [xorb].
  assert (Hprod : 2 ^ 104 <= Zpos (m1 * m2) < 2 ^ 106).
  { rewrite Pos2Z.inj_mul.
    change (2 ^ 104) with (2 ^ 52 * 2 ^ 52).
    change (2 ^ 106) with (2 ^ 53 * 2 ^ 53).
    split; [apply Z.mul_le_mono_nonneg; lia|].
    apply Z.mul_lt_mono_nonneg; lia. }
  pose proof (digits2_pos_range (m1 * m2) 104 106 ltac:(lia) Hprod) as Hd.
  destruct (binary_round_aux_error false (m1 * m2) (e1 + e2) loc_Exact
              (F2R (Zpos m1) e1 * F2R (Zpos m2) e2)%R)
    as (m & e & Hround & Hmb & Heb & Herr); try lia.
  { rewrite F2R_mul, <- Pos2Z.inj_mul. split; [lra|].
    apply F2R_le. lia. }
  exists m, e. split; [exact Hround|]. split; [exact Hmb|].
  split; [lia|exact Herr].
Qed.

(** The constant [100.0]. *)
Lemma of_int_100 :
  Float.of_int 100 = inr (S754_finite false (100 * 2 ^ 46) (-46)).
Proof. reflexivity. Qed.

Lemma of_int_zero : Float.of_int 0 = inr (S754_zero false).
Proof. reflexivity. Qed.

(** The value [float(c)/t*100] for counts below [2^53]: two roundings away
    from the exact percentage. *)
Lemma percentage_error (c t : Z) :
  0 < c < 2 ^ 53 ->
  0 < t < 2 ^ 53 ->
  exists (m : positive) (e : Z),
    percentage c t = inr (S754_finite false m e)
    /\ ((1 - eps) * (1 - eps) * (100 * IZR c / IZR t) <= F2R (Zpos m) e
        <= (1 + eps) * (1 + eps) * (100 * IZR c / IZR t))%R.
Proof.
  intros Hc Ht.
  destruct (of_int_exact c Hc) as (mc & ec & Hfc & Hmc & Hec & Hvc).
  destruct (of_int_exact t Ht) as (mt & et & Hft & Hmt & Het & Hvt).
  destruct (SFdiv_error mc mt ec et Hmc Hmt ltac:(lia))
    as (mq & eq & Hdiv & Hmq & Heq & Hq).
  destruct (SFmul_error mq (100 * 2 ^ 46) eq (-46) Hmq ltac:(simpl; lia) ltac:(lia))
    as (mp & ep & Hmul & Hmp & Hep & Hp).
  exists mp, ep. split.
  - unfold percentage, Float.truediv_int, Float.mul_int.
    rewrite Hfc, Hft, of_int_100. cbn [mbind exn_bind mret exn_ret Float.is_zero].
    unfold Float.prec, Float.emax. rewrite Hdiv. cbn [mbind exn_bind].
    now rewrite Hmul.
  - rewrite (F2R_exact c (Zpos mc) ec) in Hq by lia.
    rewrite (F2R_exact t (Zpos mt) et) in Hq by lia.
    rewrite (F2R_exact 100 (Zpos (100 * 2 ^ 46)) (-46)) in Hp
      by (reflexivity || lia).
    pose proof eps_bounds as [Heps0 Heps1].
    assert (HC : (0 < IZR c)%R) by (apply IZR_lt; lia).
    assert (HT : (0 < IZR t)%R) by (apply IZR_lt; lia).
    assert (HV : (0 < IZR c / IZR t)%R) by (now apply Rdiv_lt_0_compat).
    set (V := (IZR c / IZR t)%R) in *.
    replace (100 * IZR c / IZR t)%R with (100 * V)%R
      by (unfold V; field; lra).
    destruct Hq as [Hqlo Hqhi]. destruct Hp as [Hplo Hphi].
    set (Q := F2R (Zpos mq) eq) in *.
    split.
    + eapply Rle_trans; [|exact Hplo].
      replace ((1 - eps) * (1 - eps) * (100 * V))%R
        with ((1 - eps) * (((1 - eps) * V) * 100))%R by ring.
      apply Rmult_le_compat_l; [lra|].
      apply Rmult_le_compat_r; lra.
    + eapply Rle_trans; [exact Hphi|].
      replace ((1 + eps) * (1 + eps) * (100 * V))%R
        with ((1 + eps) * (((1 + eps) * V) * 100))%R by ring.
      apply Rmult_le_compat_l; [lra|].
      apply Rmult_le_compat_r; lra.
Qed.

(** [round_half_even n d] is an integer nearest to [n / d]. *)
Lemma round_half_even_spec (n d : Z) :
  0 < d ->
  - d <= 2 * (Float.round_half_even n d * d - n) <= d.
Proof.
  intros Hd. unfold Float.round_half_even.
  pose proof (Z.div_mod n d ltac:(lia)) as Hdm.
  pose proof (Z.mod_pos_bound n d Hd) as Hr.
  cbv zeta.
  generalize dependent (n mod d). generalize dependent (n / d).
  intros q r Hdm Hr.
  subst n.
  destruct (Z.compare_spec (2 * r) d) as [Hcmp | Hcmp | Hcmp];
    [destruct (Z.even q)| |]; lia.
Qed.

Lemma round_half_even_nonneg (n d : Z) :
  0 < d -> 0 <= n -> 0 <= Float.round_half_even n d.
Proof.
  intros Hd Hn. unfold Float.round_half_even.
  assert (Hq : 0 <= n / d) by (apply Z.div_pos; lia).
  cbv zeta.
  generalize dependent (n mod d). generalize dependent (n / d).
  intros q Hq r.
  destruct (2 * r ?= d); [destruct (Z.even q)| |]; lia.
Qed.

(** The tenths printed are within one half of ten times the value. *)
Lemma tenths_error (m : positive) (e : Z) :
  0 <= Float.tenths m e
  /\ (IZR (Float.tenths m e) - / 2 <= 10 * F2R (Zpos m) e
      <= IZR (Float.tenths m e) + / 2)%R.
Proof.
  unfold Float.tenths. destruct (Z.leb_spec 0 e) as [He | He].
  - split; [assert (0 < 2 ^ e) by (apply Z.pow_pos_nonneg; lia); nia|].
    rewrite !mult_IZR, IZR_pow2 by assumption. unfold F2R. lra.
  - assert (Hd : 0 < 2 ^ (- e)) by (apply Z.pow_pos_nonneg; lia).
    pose proof (round_half_even_spec (Zpos m * 10) (2 ^ (- e)) Hd) as [Hlo Hhi].
    split; [apply round_half_even_nonneg; lia|].
    set (r := Float.round_half_even (Zpos m * 10) (2 ^ (- e))) in *.
    apply IZR_le in Hlo, Hhi.
    rewrite opp_IZR in Hlo.
    rewrite !mult_IZR, minus_IZR, !mult_IZR, IZR_pow2 in Hlo, Hhi by lia.
    assert (Hpe : powerRZ 2 e = (/ powerRZ 2 (- e))%R).
    { rewrite <- powerRZ_neg'. f_equal. lia. }
    unfold F2R. rewrite Hpe. clear Hpe.
    pose proof (powerRZ_2_pos (- e)) as Hpos.
    set (D := powerRZ 2 (- e)) in *.
    assert (HDinv : (D * / D = 1)%R) by (apply Rinv_r; lra).
    split.
    + apply Rmult_le_reg_r with (2 * D)%R; [lra|].
      replace (10 * (IZR (Zpos m) * / D) * (2 * D))%R
        with (20 * IZR (Zpos m) * (D * / D))%R by ring.
      rewrite HDinv. lra.
    + apply Rmult_le_reg_r with (2 * D)%R; [lra|].
      replace (10 * (IZR (Zpos m) * / D) * (2 * D))%R
        with (20 * IZR (Zpos m) * (D * / D))%R by ring.
      rewrite HDinv. lra.
Qed.

(** For a count below [2^40] the two roundings cannot move the value
    across a rounding boundary of the tenths: what is printed is a nearest
    tenth of the exact percentage. *)
Lemma percentage_nearest_tenth (c t : Z) :
  0 < c < 2 ^ 40 ->
  0 < t < 2 ^ 53 ->
  exists (m : positive) (e : Z),
    percentage c t = inr (S754_finite false m e)
    /\ 0 <= Float.tenths m e
    /\ Z.abs (2 * (Float.tenths m e * t - 1000 * c)) <= t.
Proof.
  intros Hc Ht.
  destruct (percentage_error c t ltac:(lia) Ht) as (m & e & Hp & Hlo & Hhi).
  destruct (tenths_error m e) as (Hr0 & Hrlo & Hrhi).
  exists m, e. split; [exact Hp|]. split; [exact Hr0|].
  set (r := Float.tenths m e) in *. set (P := F2R (Zpos m) e) in *.
  assert (HC : (0 < IZR c <= 1099511627775)%R).
  { split; [apply IZR_lt; lia|]. apply IZR_le. lia. }
  assert (HT : (0 < IZR t)%R) by (apply IZR_lt; lia).
  (* everything multiplied by [t] is linear in [t * P], [r * t], [c], [t] *)
  assert (HxT : (100 * IZR c / IZR t * IZR t = 100 * IZR c)%R)
    by (field; lra).
  assert (HloT : ((1 - eps) * (1 - eps) * (100 * IZR c) <= P * IZR t)%R).
  { rewrite <- HxT, <- Rmult_assoc. apply Rmult_le_compat_r; lra. }
  assert (HhiT : (P * IZR t <= (1 + eps) * (1 + eps) * (100 * IZR c))%R).
  { rewrite <- HxT, <- Rmult_assoc. apply Rmult_le_compat_r; lra. }
  assert (HrloT : ((IZR r - / 2) * IZR t <= 10 * P * IZR t)%R)
    by (apply Rmult_le_compat_r; lra).
  assert (HrhiT : (10 * P * IZR t <= (IZR r + / 2) * IZR t)%R)
    by (apply Rmult_le_compat_r; lra).
  unfold eps in HloT, HhiT. change (2 ^ 52) with 4503599627370496 in HloT, HhiT.
  set (PT := (P * IZR t)%R) in *. set (RT := (IZR r * IZR t)%R).
  assert (Hreal : (- (IZR t + 1) < 2 * (RT - 1000 * IZR c) < IZR t + 1)%R).
  { replace ((IZR r - / 2) * IZR t)%R with (RT - / 2 * IZR t)%R in HrloT
      by (unfold RT; ring).
    replace ((IZR r + / 2) * IZR t)%R with (RT + / 2 * IZR t)%R in HrhiT
      by (unfold RT; ring).
    replace (10 * P * IZR t)%R with (10 * PT)%R in HrloT, HrhiT
      by (unfold PT; ring).
    split; lra. }
  unfold RT in Hreal.
  rewrite <- !mult_IZR, <- minus_IZR, <- mult_IZR, <- plus_IZR, <- opp_IZR
    in Hreal.
  destruct Hreal as [Hl Hu]. apply lt_IZR in Hl, Hu. lia.
Qed.

(** [float(c)] does not overflow for a count in [0, 2^53). *)
Lemma of_int_fits (c : Z) :
  0 <= c < 2 ^ 53 -> Float.of_int c <> inl OverflowError.
Proof.
  intros Hc. destruct (Z.eq_dec c 0) as [-> | Hne].
  - rewrite of_int_zero. discriminate.
  - destruct (of_int_exact c ltac:(lia)) as (m & e & -> & _). discriminate.
Qed.

(** A percentage of zero prints as [0.0]. *)
Lemma percentage_zero (t : Z) :
  0 < t < 2 ^ 53 -> percentage 0 t = inr (S754_zero false).
Proof.
  intros Ht. destruct (of_int_exact t Ht) as (mt & et & Hft & _).
  unfold percentage, Float.truediv_int, Float.mul_int.
  rewrite of_int_zero, Hft, of_int_100. reflexivity.
Qed.

(** What [percent] prints for a count in [0, 2^40) and a total in
    (0, 2^53): the tenths [r] of a nearest multiple of [0.1]. *)
Lemma percent_nearest_tenth (c t : Z) :
  0 <= c < 2 ^ 40 ->
  0 < t < 2 ^ 53 ->
  exists r : Z,
    percent c t = inr (Float.fixed1 false r)
    /\ 0 <= r
    /\ Z.abs (2 * (r * t - 1000 * c)) <= t.
Proof.
  intros Hc Ht. unfold percent.
  destruct (Z.eq_dec c 0) as [-> | Hne].
  - exists 0. rewrite percentage_zero by assumption.
    split; [reflexivity|]. lia.
  - destruct (percentage_nearest_tenth c t ltac:(lia) Ht)
      as (m & e & -> & Hr0 & Hnear).
    exists (Float.tenths m e). split; [reflexivity|]. split; assumption.
Qed.

(** C2, as the code has it. For statistics with [0 < totalPaths < 2^53]
    and both counts in [0, 2^40) the table is formatted, each of the two
    percentages is printed as a number of tenths [r] (integer part, point,
    one digit) that is within 0.05 of [count / totalPaths * 100], and when
    the counts add up to [totalPaths] the two printed percentages add up
    to [99.9], [100.0] or [100.1]. *)
Theorem performance_table_percentages (stats : Statistics)
    (Htotal : 0 < totalPaths stats < 2 ^ 53)
    (Hcorrect : 0 <= correctPaths stats < 2 ^ 40)
    (Hincorrect : 0 <= incorrectPaths stats < 2 ^ 40) :
  exists rc ri : Z,
    performance_table stats
    = inr (table_text stats (Float.fixed1 false rc) (Float.fixed1 false ri))
    /\ 0 <= rc /\ 0 <= ri
    /\ Z.abs (2 * (rc * totalPaths stats - 1000 * correctPaths stats))
       <= totalPaths stats
    /\ Z.abs (2 * (ri * totalPaths stats - 1000 * incorrectPaths stats))
       <= totalPaths stats
    /\ (correctPaths stats + incorrectPaths stats = totalPaths stats ->
        Z.abs (rc + ri - 1000) <= 1).
Proof.
  destruct (percent_nearest_tenth _ _ Hcorrect Htotal) as (rc & Hpc & Hrc & Hnc).
  destruct (percent_nearest_tenth _ _ Hincorrect Htotal) as (ri & Hpi & Hri & Hni).
  exists rc, ri. unfold performance_table. rewrite Hpc, Hpi.
  split; [reflexivity|]. repeat (split; [assumption|]).
  intros Hsum. nia.
Qed.

Lemma performance_table_percentages_witness :
  0 < totalPaths balanced_statistics < 2 ^ 53
  /\ 0 <= correctPaths balanced_statistics < 2 ^ 40
  /\ 0 <= incorrectPaths balanced_statistics < 2 ^ 40
  /\ exists rc ri : Z,
       performance_table balanced_statistics
       = inr (table_text balanced_statistics
                (Float.fixed1 false rc) (Float.fixed1 false ri))
       /\ 0 <= rc /\ 0 <= ri
       /\ Z.abs (2 * (rc * totalPaths balanced_statistics
                      - 1000 * correctPaths balanced_statistics))
          <= totalPaths balanced_statistics
       /\ Z.abs (2 * (ri * totalPaths balanced_statistics
                      - 1000 * incorrectPaths balanced_statistics))
          <= totalPaths balanced_statistics
       /\ (correctPaths balanced_statistics + incorrectPaths balanced_statistics
           = totalPaths balanced_statistics ->
           Z.abs (rc + ri - 1000) <= 1).
Proof.
  assert (Htotal : 0 < totalPaths balanced_statistics < 2 ^ 53)
    by (simpl; lia).
  assert (Hcorrect : 0 <= correctPaths balanced_statistics < 2 ^ 40)
    by (simpl; lia).
  assert (Hincorrect : 0 <= incorrectPaths balanced_statistics < 2 ^ 40)
    by (simpl; lia).
  split; [exact Htotal|]. split; [exact Hcorrect|]. split; [exact Hincorrect|].
  exact (performance_table_percentages balanced_statistics
           Htotal Hcorrect Hincorrect).
Defined.

(** C2 as written fails for large counts.  With 6104913946057 correct
    paths out of 8592419347019 the exact percentage is
    71.0500000000000058..., whose nearest tenth is 71.1, but
    [float(count)/total*100] is the double 71.04999999999999716... and
    [71.0] is printed; and with a count of [2^1024] and one path, [float]
    raises and no table is formatted at all. *)
Lemma rendered_percentage_not_nearest :
  0 < totalPaths boundary_statistics
  /\ correctPaths boundary_statistics + incorrectPaths boundary_statistics
     = totalPaths boundary_statistics
  /\ percent (correctPaths boundary_statistics) (totalPaths boundary_statistics)
     = inr (lit "71.0")
  /\ Float.fixed1 false 710 = lit "71.0"
  /\ totalPaths boundary_statistics
     < Z.abs (2 * (710 * totalPaths boundary_statistics
                   - 1000 * correctPaths boundary_statistics))
  /\ 0 < totalPaths overflowing_statistics
  /\ performance_table overflowing_statistics = inl OverflowError.
Proof.
  repeat split; vm_compute; reflexivity.
Qed.

(** The specification's own figures. *)
Example balanced_table_percentages :
  percent (correctPaths balanced_statistics) (totalPaths balanced_statistics)
  = inr (lit "50.0")
  /\ percent (incorrectPaths balanced_statistics) (totalPaths balanced_statistics)
     = inr (lit "50.0")
  /\ percent 1 3 = inr (lit "33.3")
  /\ percent 2 3 = inr (lit "66.7")
  /\ percent 1 2000 = inr (lit "0.1")
  /\ percent 3 2000 = inr (lit "0.1")
  /\ percent (-1) 3000 = inr (lit "-0.0")
  /\ percent (10 ^ 308) 1 = inr (lit "inf").
Proof. repeat split; vm_compute; reflexivity. Qed.

(** ** The run as a whole (C5, C6, C7, C8) *)

Section Run.

Variable json_load_statistics : str -> option Statistics.
Variable json_load_samples : str -> option (list Sample).
Variable json_dump : json -> str.

Abbreviation load := (load_data json_load_statistics json_load_samples).
Abbreviation run := (main json_load_statistics json_load_samples json_dump).

(** Loading reads the two input files and nothing else, and leaves the
    world as it is. *)
Lemma load_data_run (w : world) :
  load w
  = (w,
     match files w !! statistics_file with
     | None => inl FileNotFoundError
     | Some text =>
         match json_load_statistics text with
         | None => inl JSONDecodeError
         | Some stats =>
             match files w !! samples_file with
             | None => inl FileNotFoundError
             | Some text' =>
                 match json_load_samples text' with
                 | None => inl JSONDecodeError
                 | Some samples => inr (stats, samples)
                 end
             end
         end
     end).
Proof.
  unfold load_data, json_load, read_file, raise, mbind, M_bind,
    bind, mret, M_ret, ret.
  destruct (files w !! statistics_file) as [text|]; [|reflexivity].
  destruct (json_load_statistics text) as [stats|]; [|reflexivity].
  destruct (files w !! samples_file) as [text'|]; [|reflexivity].
  destruct (json_load_samples text') as [samples|]; reflexivity.
Qed.

(** The files and the result of a run, by what loading and the
    performance table give. *)
Lemma main_run (w : world) :
  (files (fst (run w)), snd (run w))
  = match snd (load w) with
    | inl e => (files w, inl e)
    | inr (stats, samples) =>
        match performance_table stats with
        | inl e => (files_after_diagram json_dump samples w, inl e)
        | inr table =>
            (<[slides_file := slide_content]>
               (<[table_file := table]> (files_after_diagram json_dump samples w)),
             inr tt)
        end
    end.
Proof.
  unfold main, mbind, M_bind, bind, print.
  rewrite !load_data_run. cbn [fst snd files].
  destruct (files w !! statistics_file) as [text|]; [|reflexivity].
  destruct (json_load_statistics text) as [stats|]; [|reflexivity].
  destruct (files w !! samples_file) as [text'|]; [|reflexivity].
  destruct (json_load_samples text') as [samples|]; [|reflexivity].
  unfold create_comparison_examples, create_architecture_diagram,
    create_performance_table, create_slide_content, lift, write_file, print,
    mbind, M_bind, bind, mret, M_ret, ret.
  cbn [fst snd files].
  destruct (performance_table stats) as [e|table]; reflexivity.
Qed.

Lemma load_data_unreadable (w : world) :
  unreadable json_load_statistics statistics_file w
  \/ unreadable json_load_samples samples_file w ->
  exists e,
    snd (load w) = inl e
    /\ (e = FileNotFoundError \/ e = JSONDecodeError).
Proof.
  unfold unreadable. rewrite load_data_run. cbn [snd].
  destruct (files w !! statistics_file) as [text|]; [|eauto].
  destruct (json_load_statistics text) as [stats|]; [|eauto].
  destruct (files w !! samples_file) as [text'|]; [|eauto].
  destruct (json_load_samples text') as [samples|]; [|eauto].
  intros [H | H]; discriminate.
Qed.

(** C6. When either input file is missing or does not hold valid JSON, the
    run ends in an error ([FileNotFoundError] or [JSONDecodeError]) and the
    directory is as it was: none of the four output files was written. *)
Theorem unreadable_input_aborts_before_output (w : world)
    (Hbad : unreadable json_load_statistics statistics_file w
            \/ unreadable json_load_samples samples_file w) :
  exists e,
    snd (run w) = inl e
    /\ (e = FileNotFoundError \/ e = JSONDecodeError)
    /\ files (fst (run w)) = files w
    /\ List.Forall
         (fun name => files (fst (run w)) !! name = files w !! name)
         output_files.
Proof.
  destruct (load_data_unreadable w Hbad) as (e & Hload & He).
  pose proof (main_run w) as Hrun. rewrite Hload in Hrun.
  injection Hrun as Hfiles Hres.
  exists e. repeat split; try assumption.
  rewrite Hfiles. repeat constructor.
Qed.

(** The performance table cannot be formatted without paths. *)
Lemma performance_table_no_paths (stats : Statistics) :
  totalPaths stats = 0 ->
  Float.of_int (correctPaths stats) <> inl OverflowError ->
  performance_table stats = inl ZeroDivisionError.
Proof.
  intros Hzero Hfits. unfold performance_table, percent, percentage.
  rewrite Hzero. unfold Float.of_int in *.
  destruct (binary_normalize Float.prec Float.emax (correctPaths stats) 0 false);
    try reflexivity.
  congruence.
Qed.

(** C5, as the code has it. When the statistics load with [totalPaths = 0]
    (and [correctPaths] is a number [float] can hold), the run ends in a
    [ZeroDivisionError]; the comparison document and the diagram are then
    in place, and the table and slide files are as they were before. *)
Theorem no_paths_fails_at_performance_table
    (w : world) (stats : Statistics) (samples : list Sample)
    (Hload : snd (load w) = inr (stats, samples))
    (Hzero : totalPaths stats = 0)
    (Hfits : Float.of_int (correctPaths stats) <> inl OverflowError) :
  snd (run w) = inl ZeroDivisionError
  /\ files (fst (run w)) !! comparison_file
     = Some (json_dump (comparison_json (build_comparison samples)))
  /\ files (fst (run w)) !! diagram_file = Some architecture_diagram
  /\ files (fst (run w)) !! table_file = files w !! table_file
  /\ files (fst (run w)) !! slides_file = files w !! slides_file.
Proof.
  pose proof (main_run w) as Hrun. rewrite Hload in Hrun.
  rewrite (performance_table_no_paths stats Hzero Hfits) in Hrun.
  injection Hrun as Hfiles Hres.
  rewrite Hfiles. unfold files_after_diagram.
  split; [exact Hres|].
  split; [rewrite lookup_insert_ne by discriminate; apply lookup_insert_eq|].
  split; [apply lookup_insert_eq|].
  split; rewrite !lookup_insert_ne by discriminate; reflexivity.
Qed.

(** The same inputs give the same loading result. *)
Lemma load_data_inputs (w1 w2 : world) :
  files w1 !! statistics_file = files w2 !! statistics_file ->
  files w1 !! samples_file = files w2 !! samples_file ->
  snd (load w1) = snd (load w2).
Proof.
  intros Hstats Hsamples. rewrite !load_data_run. cbn [snd].
  now rewrite Hstats, Hsamples.
Qed.

Lemma lookup_output_after_run
    (samples : list Sample) (table : str) (w : world) (name : string) :
  In name output_files ->
  (<[slides_file := slide_content]>
     (<[table_file := table]> (files_after_diagram json_dump samples w)))
    !! name
  = (<[slides_file := slide_content]>
       (<[table_file := table]>
          (files_after_diagram json_dump samples empty_world))) !! name.
Proof.
  unfold files_after_diagram, output_files. cbn [In].
  intros [<- | [<- | [<- | [<- | []]]]].
  - rewrite !(lookup_insert_ne _ slides_file), !(lookup_insert_ne _ table_file),
      !(lookup_insert_ne _ diagram_file) by discriminate.
    now rewrite !lookup_insert_eq.
  - rewrite !(lookup_insert_ne _ slides_file), !(lookup_insert_ne _ table_file)
      by discriminate.
    now rewrite !lookup_insert_eq.
  - rewrite !(lookup_insert_ne _ slides_file) by discriminate.
    now rewrite !lookup_insert_eq.
  - now rewrite !lookup_insert_eq.
Qed.

(** C7. Two runs from directories whose two input files are identical end
    alike, and when they succeed each of the four output files has the same
    content in both: nothing but the input files goes into the outputs. *)
Theorem runs_on_equal_inputs_agree (w1 w2 : world)
    (Hstats : files w1 !! statistics_file = files w2 !! statistics_file)
    (Hsamples : files w1 !! samples_file = files w2 !! samples_file) :
  snd (run w1) = snd (run w2)
  /\ (snd (run w1) = inr tt ->
      List.Forall
        (fun name =>
           is_Some (files (fst (run w1)) !! name)
           /\ files (fst (run w1)) !! name = files (fst (run w2)) !! name)
        output_files).
Proof.
  pose proof (main_run w1) as Hrun1. pose proof (main_run w2) as Hrun2.
  rewrite (load_data_inputs w1 w2 Hstats Hsamples) in Hrun1.
  destruct (snd (load w2)) as [e | [stats samples]].
  - injection Hrun1 as _ Hres1. injection Hrun2 as _ Hres2.
    split; [congruence|]. intros Hok. congruence.
  - destruct (performance_table stats) as [e | table].
    + injection Hrun1 as _ Hres1. injection Hrun2 as _ Hres2.
      split; [congruence|]. intros Hok. congruence.
    + injection Hrun1 as Hfiles1 Hres1. injection Hrun2 as Hfiles2 Hres2.
      split; [congruence|]. intros _.
      apply List.Forall_forall. intros name Hname.
      rewrite Hfiles1, Hfiles2.
      rewrite (lookup_output_after_run samples table w1 name Hname).
      rewrite (lookup_output_after_run samples table w2 name Hname).
      split; [|reflexivity].
      unfold files_after_diagram, output_files in *. cbn [In] in Hname.
      destruct Hname as [<- | [<- | [<- | [<- | []]]]];
        repeat (rewrite lookup_insert_eq || rewrite lookup_insert_ne by discriminate);
        eauto.
Qed.

(** A second run changes no file: the run does not touch its inputs, and
    it writes what it wrote before. *)
Lemma main_twice (w : world) :
  files (fst (run (fst (run w)))) = files (fst (run w))
  /\ snd (run (fst (run w))) = snd (run w).
Proof.
  pose proof (main_run w) as Hrun1.
  pose proof (main_run (fst (run w))) as Hrun2.
  assert (Hload : snd (load (fst (run w))) = snd (load w)).
  { apply load_data_inputs.
    - destruct (snd (load w)) as [e | [stats samples]].
      + injection Hrun1 as -> _. reflexivity.
      + destruct (performance_table stats); injection Hrun1 as -> _;
          unfold files_after_diagram;
          now rewrite !lookup_insert_ne by discriminate.
    - destruct (snd (load w)) as [e | [stats samples]].
      + injection Hrun1 as -> _. reflexivity.
      + destruct (performance_table stats); injection Hrun1 as -> _;
          unfold files_after_diagram;
          now rewrite !lookup_insert_ne by discriminate. }
  rewrite Hload in Hrun2.
  destruct (snd (load w)) as [e | [stats samples]].
  - injection Hrun1 as Hf1 Hr1. injection Hrun2 as Hf2 Hr2. split; congruence.
  - destruct (performance_table stats) as [e | table];
      injection Hrun1 as Hf1 Hr1; injection Hrun2 as Hf2 Hr2;
      (split; [|congruence]); rewrite Hf2; unfold files_after_diagram;
      rewrite Hf1; unfold files_after_diagram;
      apply map_eq; intros name;
      rewrite !lookup_insert; repeat case_decide; congruence.
Qed.

(** The two static formatters take no data and write a constant. *)
Lemma static_formatters_run (w : world) :
  create_architecture_diagram w
  = ({| files := <[diagram_file := architecture_diagram]> (files w);
        stdout :=
          stdout w
          ++ [lit "✓ Created architecture diagram: dpo_architecture_diagram.txt"] |},
     inr architecture_diagram)
  /\ create_slide_content w
     = ({| files := <[slides_file := slide_content]> (files w);
           stdout :=
             stdout w
             ++ [lit "✓ Created presentation slides: dpo_presentation_slides.md"] |},
        inr slide_content).
Proof. split; reflexivity. Qed.

(** C8. After a successful run the diagram file holds [architecture_diagram]
    and the slide file holds [slide_content], two constants in which neither
    the loaded statistics nor the samples occur: the contents are the same
    for every pair of input files. *)
Theorem static_outputs_are_constant (w : world)
    (Hok : snd (run w) = inr tt) :
  files (fst (run w)) !! diagram_file = Some architecture_diagram
  /\ files (fst (run w)) !! slides_file = Some slide_content.
Proof.
  pose proof (main_run w) as Hrun.
  destruct (snd (load w)) as [e | [stats samples]].
  - injection Hrun as _ Hres. congruence.
  - destruct (performance_table stats) as [e | table].
    + injection Hrun as _ Hres. congruence.
    + injection Hrun as Hfiles _. rewrite Hfiles. unfold files_after_diagram.
      split; [|apply lookup_insert_eq].
      rewrite !lookup_insert_ne by discriminate. apply lookup_insert_eq.
Qed.

End Run.

(** *** Concrete runs *)

Lemma unreadable_input_aborts_before_output_witness :
  (unreadable load_balanced statistics_file damaged_world
   \/ unreadable load_five samples_file damaged_world)
  /\ exists e,
       snd (main load_balanced load_five compact_dump damaged_world) = inl e
       /\ (e = FileNotFoundError \/ e = JSONDecodeError)
       /\ files (fst (main load_balanced load_five compact_dump damaged_world))
          = files damaged_world
       /\ List.Forall
            (fun name =>
               files (fst (main load_balanced load_five compact_dump
                             damaged_world)) !! name
               = files damaged_world !! name)
            output_files.
Proof.
  assert (Hbad : unreadable load_balanced statistics_file damaged_world
                 \/ unreadable load_five samples_file damaged_world).
  { right. vm_compute. reflexivity. }
  split; [exact Hbad|].
  exact (unreadable_input_aborts_before_output
           load_balanced load_five compact_dump damaged_world Hbad).
Defined.

Lemma no_paths_fails_at_performance_table_witness :
  snd (load_data load_empty load_five input_world)
  = inr (empty_statistics, five_samples)
  /\ totalPaths empty_statistics = 0
  /\ Float.of_int (correctPaths empty_statistics) <> inl OverflowError
  /\ snd (main load_empty load_five compact_dump input_world)
     = inl ZeroDivisionError
  /\ files (fst (main load_empty load_five compact_dump input_world))
       !! table_file = None.
Proof.
  assert (Hload : snd (load_data load_empty load_five input_world)
                  = inr (empty_statistics, five_samples)).
  { vm_compute. reflexivity. }
  assert (Hfits : Float.of_int (correctPaths empty_statistics)
                  <> inl OverflowError).
  { vm_compute. discriminate. }
  split; [exact Hload|]. split; [reflexivity|]. split; [exact Hfits|].
  destruct (no_paths_fails_at_performance_table
              load_empty load_five compact_dump input_world
              empty_statistics five_samples Hload eq_refl Hfits)
    as (Hres & _ & _ & Htable & _).
  split; [exact Hres|]. rewrite Htable. vm_compute. reflexivity.
Defined.

(** C5 as written fails when [correctPaths] is beyond the range of
    [float]: with [totalPaths = 0] the run then ends in an
    [OverflowError], raised by [float(...)] before the division. *)
Lemma no_paths_overflow_before_division :
  totalPaths huge_statistics = 0
  /\ snd (load_data load_huge load_five input_world)
     = inr (huge_statistics, five_samples)
  /\ snd (main load_huge load_five compact_dump input_world)
     = inl OverflowError
  /\ snd (main load_huge load_five compact_dump input_world)
     <> inl ZeroDivisionError.
Proof.
  split; [reflexivity|]. split; [vm_compute; reflexivity|].
  assert (Hres : snd (main load_huge load_five compact_dump input_world)
                 = inl OverflowError).
  { vm_compute. reflexivity. }
  split; [exact Hres|]. rewrite Hres. discriminate.
Qed.

Lemma runs_on_equal_inputs_agree_witness :
  files input_world !! statistics_file = files stale_world !! statistics_file
  /\ files input_world !! samples_file = files stale_world !! samples_file
  /\ snd (main load_balanced load_five compact_dump input_world)
     = snd (main load_balanced load_five compact_dump stale_world)
  /\ files (fst (main load_balanced load_five compact_dump input_world))
       !! table_file
     = files (fst (main load_balanced load_five compact_dump stale_world))
         !! table_file.
Proof.
  assert (Hstats : files input_world !! statistics_file
                   = files stale_world !! statistics_file).
  { vm_compute. reflexivity. }
  assert (Hsamples : files input_world !! samples_file
                     = files stale_world !! samples_file).
  { vm_compute. reflexivity. }
  split; [exact Hstats|]. split; [exact Hsamples|].
  destruct (runs_on_equal_inputs_agree load_balanced load_five compact_dump
              input_world stale_world Hstats Hsamples) as [Hres Hfiles].
  split; [exact Hres|].
  assert (Hok : snd (main load_balanced load_five compact_dump input_world)
                = inr tt).
  { vm_compute. reflexivity. }
  pose proof (proj1 (List.Forall_forall _ _) (Hfiles Hok) table_file) as Htable.
  apply Htable. unfold output_files. cbn [In]. auto.
Defined.

Lemma static_outputs_are_constant_witness :
  snd (main load_balanced load_five compact_dump input_world) = inr tt
  /\ files (fst (main load_balanced load_five compact_dump input_world))
       !! diagram_file = Some architecture_diagram
  /\ files (fst (main load_balanced load_five compact_dump input_world))
       !! slides_file = Some slide_content.
Proof.
  assert (Hok : snd (main load_balanced load_five compact_dump input_world)
                = inr tt).
  { vm_compute. reflexivity. }
  split; [exact Hok|].
  exact (static_outputs_are_constant
           load_balanced load_five compact_dump input_world Hok).
Defined.

(** The end-to-end scenario of the specification: five samples of which
    the second and the fourth are wrongly predicted give two examples,
    numbered in their order of appearance. *)
Example five_samples_two_examples :
  examples (build_comparison five_samples)
  = [example 1 wrong_sample; example 2 wrong_sample]
  /\ percent (correctPaths balanced_statistics) (totalPaths balanced_statistics)
     = inr (lit "50.0").
Proof. split; vm_compute; reflexivity. Qed.

(** * Further properties of the code *)

(** ** Lines, stripping and deletion *)

Section MoreTextFacts.

Lemma split_nonempty (s : str) (sep : char) : split s sep <> [].
Proof.
  destruct s as [|c t]; simpl; [discriminate|].
  destruct (c =? sep)%N; [discriminate|].
  destruct (split t sep); discriminate.
Qed.

(** Splitting a text that holds a separator splits both sides. *)
Lemma split_app_sep (a b : str) (sep : char) :
  split (a ++ sep :: b) sep = split a sep ++ split b sep.
Proof.
  induction a as [|c a IH]; simpl.
  - now rewrite N.eqb_refl.
  - destruct (c =? sep)%N; [now rewrite IH|].
    rewrite IH. pose proof (split_nonempty a sep) as Hne.
    destruct (split a sep) as [|l ls]; [congruence|reflexivity].
Qed.

(** No piece holds the separator. *)
Lemma split_no_sep (s : str) (sep : char) :
  List.Forall (fun piece => ~ In sep piece) (split s sep).
Proof.
  induction s as [|c t IH]; simpl.
  - constructor; [intros []|constructor].
  - destruct (N.eqb_spec c sep) as [-> | Hne].
    + constructor; [intros []|exact IH].
    + destruct (split t sep) as [|l ls]; [repeat constructor; intros [|[]]; congruence|].
      inversion IH as [|? ? Hl Hls]; subst.
      constructor; [|exact Hls].
      intros [Heq | Hin]; [congruence|contradiction].
Qed.

(** There is one piece more than there are separators. *)
Lemma length_split (s : str) (sep : char) :
  length (split s sep) = S (length (List.filter (fun c => (c =? sep)%N) s)).
Proof.
  induction s as [|c t IH]; simpl; [reflexivity|].
  destruct (c =? sep)%N; simpl; [now rewrite IH|].
  pose proof (split_nonempty t sep) as Hne.
  destruct (split t sep) as [|l ls]; [congruence|exact IH].
Qed.

Lemma lstrip_incl (s : str) (x : char) : In x (lstrip s) -> In x s.
Proof.
  induction s as [|c t IH]; simpl; [auto|].
  destruct (isspace c); [auto|]. simpl. auto.
Qed.

Lemma rstrip_incl (s : str) (x : char) : In x (rstrip s) -> In x s.
Proof.
  induction s as [|c t IH]; simpl; [auto|].
  destruct (rstrip t) as [|r rs].
  - destruct (isspace c); simpl; [intros []|]. intros [-> | []]. now left.
  - intros [-> | Hin]; [now left|]. right. apply IH. exact Hin.
Qed.

(** Stripping only takes characters away. *)
Lemma strip_incl (s : str) (x : char) : In x (strip s) -> In x s.
Proof. intros Hin. now apply lstrip_incl, rstrip_incl. Qed.

(** Replacing by the empty text only takes characters away. *)
Lemma replace_from_delete_incl (old s : str) (skip : nat) (x : char) :
  In x (replace_from old [] skip s) -> In x s.
Proof.
  revert skip; induction s as [|c t IH]; intros skip; [simpl; auto|].
  cbn [replace_from]. destruct skip as [|k].
  - destruct (startswith (c :: t) old).
    + cbn [app]. intros Hin. right. eapply IH. exact Hin.
    + intros [-> | Hin]; [now left|]. right. eapply IH. exact Hin.
  - intros Hin. right. eapply IH. exact Hin.
Qed.

(** What [lstrip] returns does not start with whitespace. *)
Lemma lstrip_head (s : str) :
  lstrip s = [] \/ exists c t, lstrip s = c :: t /\ isspace c = false.
Proof.
  induction s as [|c t IH]; simpl; [now left|].
  destruct (isspace c) eqn:Hc; [exact IH|]. right. eauto.
Qed.

Lemma rstrip_idem (s : str) : rstrip (rstrip s) = rstrip s.
Proof.
  induction s as [|c t IH]; simpl; [reflexivity|].
  destruct (rstrip t) as [|r rs] eqn:Hr.
  - destruct (isspace c) eqn:Hc; simpl; [reflexivity|]. now rewrite Hc.
  - change (rstrip (c :: r :: rs)) with
      (match rstrip (r :: rs) with
       | [] => if isspace c then [] else [c]
       | x :: xs => c :: x :: xs
       end).
    now rewrite IH.
Qed.

(** A stripped text is left alone by [strip]. *)
Lemma strip_idem (s : str) : strip (strip s) = strip s.
Proof.
  unfold strip. destruct (lstrip_head s) as [-> | (c & t & -> & Hc)].
  - reflexivity.
  - rewrite rstrip_cons_nonspace by assumption.
    simpl lstrip. rewrite Hc.
    rewrite <- (rstrip_cons_nonspace c t Hc). apply rstrip_idem.
Qed.

End MoreTextFacts.

(** ** More on question and path extraction *)

Lemma has_question_line_first (lines : list str) :
  existsb (fun line => startswith line question_prefix) lines
  = match spec_first_question_line lines with
    | Some _ => true
    | None => false
    end.
Proof.
  induction lines as [|line rest IH]; [reflexivity|].
  cbn [existsb spec_first_question_line].
  destruct (startswith line question_prefix); [reflexivity|exact IH].
Qed.

Lemma first_question_line_In (lines : list str) (line : str) :
  spec_first_question_line lines = Some line -> In line lines.
Proof.
  induction lines as [|l rest IH]; [discriminate|].
  cbn [spec_first_question_line].
  destruct (startswith l question_prefix).
  - intros [= ->]. now left.
  - intros H. right. now apply IH.
Qed.

Lemma skipn_incl {A} (n : nat) (l : list A) (x : A) :
  In x (skipn n l) -> In x l.
Proof.
  intros Hin. rewrite <- (firstn_skipn n l). apply in_or_app. now right.
Qed.

Lemma extract_question_loop_app (lines1 lines2 : list str) :
  extract_question_loop (lines1 ++ lines2)
  = if existsb (fun line => startswith line question_prefix) lines1
    then extract_question_loop lines1
    else extract_question_loop lines2.
Proof.
  induction lines1 as [|line rest IH]; [reflexivity|].
  cbn [app extract_question_loop existsb].
  destruct (startswith line question_prefix); [reflexivity|exact IH].
Qed.

(** Without a line that starts with ["Question:"] the placeholder is
    returned, whatever else the prompt holds. *)
Theorem extract_question_without_question_line (prompt : str)
    (Hnone : has_question_line prompt = false) :
  extract_question prompt = unknown_question.
Proof.
  unfold has_question_line in Hnone.
  rewrite has_question_line_first in Hnone.
  rewrite extract_question_unfold.
  destruct (spec_first_question_line (split prompt newline));
    [discriminate|reflexivity].
Qed.

Lemma extract_question_without_question_line_witness :
  has_question_line heading_prompt = false
  /\ extract_question heading_prompt = unknown_question.
Proof.
  assert (Hnone : has_question_line heading_prompt = false)
    by (vm_compute; reflexivity).
  split; [exact Hnone|].
  exact (extract_question_without_question_line heading_prompt Hnone).
Defined.

(** A prompt that starts with the question line gives the text behind the
    prefix, stripped, when that text does not hold ["Question:"] again. *)
Theorem extract_question_leading_line (rest tail : str)
    (Hline : ~ In newline rest)
    (Honce : forall a b, rest <> a ++ question_prefix ++ b) :
  extract_question (question_prefix ++ rest ++ newline :: tail) = strip rest.
Proof.
  unfold extract_question. cbv zeta.
  rewrite app_assoc, split_app_sep.
  assert (Hsplit : split (question_prefix ++ rest) newline
                   = [question_prefix ++ rest]).
  { assert (Hno : ~ In newline (question_prefix ++ rest)).
    { intros Hin. apply in_app_or in Hin as [Hin | Hin]; [|contradiction].
      vm_compute in Hin. repeat destruct Hin as [Hin | Hin]; try discriminate.
      exact Hin. }
    induction (question_prefix ++ rest) as [|c l IH]; [reflexivity|].
    simpl. destruct (N.eqb_spec c newline) as [-> | Hne].
    - exfalso. apply Hno. now left.
    - rewrite IH; [reflexivity|]. intros Hin. apply Hno. now right. }
  rewrite Hsplit. cbn [app extract_question_loop].
  rewrite startswith_prefix_app.
  rewrite replace_leading by discriminate.
  cbn [app]. now rewrite replace_absent.
Qed.

Lemma extract_question_leading_line_witness :
  ~ In newline (lit " Will X happen?")
  /\ (forall a b, lit " Will X happen?" <> a ++ question_prefix ++ b)
  /\ extract_question
       (question_prefix ++ lit " Will X happen?" ++ newline :: lit "Other line")
     = lit "Will X happen?".
Proof.
  assert (Hline : ~ In newline (lit " Will X happen?")).
  { intros Hin. vm_compute in Hin.
    repeat destruct Hin as [Hin | Hin]; try discriminate. exact Hin. }
  assert (Honce : forall a b, lit " Will X happen?" <> a ++ question_prefix ++ b).
  { intros a b Heq.
    assert (Hlen : length (lit " Will X happen?")
                   = (length a + (length question_prefix + length b))%nat)
      by (rewrite Heq, !length_app; reflexivity).
    assert (HQ : In 81%N (lit " Will X happen?")).
    { rewrite Heq. apply in_or_app. right. apply in_or_app. left.
      vm_compute. now left. }
    vm_compute in HQ.
    repeat destruct HQ as [HQ | HQ]; try discriminate. exact HQ. }
  split; [exact Hline|]. split; [exact Honce|].
  exact (extract_question_leading_line (lit " Will X happen?")
           (lit "Other line") Hline Honce).
Defined.

(** Lines before the first question line do not matter, and nothing
    behind it does: over two prompts joined by a newline the question is
    that of the first prompt if it has a question line, and that of the
    second otherwise. *)
Theorem extract_question_joined (a b : str) :
  extract_question (a ++ newline :: b)
  = if has_question_line a then extract_question a else extract_question b.
Proof.
  unfold extract_question, has_question_line. cbv zeta.
  rewrite split_app_sep. apply extract_question_loop_app.
Qed.

(** The question returned is one stripped line: stripping it again
    changes nothing and it holds no newline. *)
Theorem extract_question_is_clean (prompt : str) :
  strip (extract_question prompt) = extract_question prompt
  /\ ~ In newline (extract_question prompt).
Proof.
  rewrite extract_question_unfold.
  destruct (spec_first_question_line (split prompt newline)) as [line|] eqn:Hline.
  - split; [apply strip_idem|].
    intros Hin. apply strip_incl in Hin.
    apply replace_from_delete_incl, skipn_incl in Hin.
    apply first_question_line_In in Hline.
    pose proof (split_no_sep prompt newline) as Hno.
    rewrite List.Forall_forall in Hno. exact (Hno line Hline Hin).
  - split; [vm_compute; reflexivity|].
    intros Hin. vm_compute in Hin.
    repeat destruct Hin as [Hin | Hin]; try discriminate. exact Hin.
Qed.

(** The scenario path of two prompts joined by a newline is the path of
    the first followed by the path of the second. *)
Theorem extract_path_joined (a b : str) :
  extract_path (a ++ newline :: b) = extract_path a ++ extract_path b.
Proof.
  unfold extract_path. cbv zeta.
  rewrite split_app_sep, !extract_path_loop. cbn [app].
  now rewrite List.filter_app, map_app.
Qed.

(** Every step returned is one stripped line, and there are at most as
    many steps as the prompt has lines (one more than it has newlines). *)
Theorem extract_path_steps_are_clean (prompt : str) :
  List.Forall (fun step => strip step = step /\ ~ In newline step)
              (extract_path prompt)
  /\ (length (extract_path prompt)
      <= S (length (List.filter (fun c => (c =? newline)%N) prompt)))%nat.
Proof.
  unfold extract_path. cbv zeta. rewrite extract_path_loop. cbn [app]. split.
  - apply List.Forall_forall. intros step Hin.
    apply in_map_iff in Hin as (line & <- & Hline).
    apply filter_In in Hline as [Hline _].
    split; [apply strip_idem|].
    intros Hnl. apply strip_incl in Hnl.
    pose proof (split_no_sep prompt newline) as Hno.
    rewrite List.Forall_forall in Hno. exact (Hno line Hline Hnl).
  - rewrite length_map, <- length_split. apply List.filter_length_le.
Qed.


Example late_question_prompt_parts :
  extract_question late_question_prompt = lit "Will X happen?"
  /\ extract_path late_question_prompt = [lit "[Depth 1] A (p=0.5)"]
  /\ has_question_line late_question_prompt = true.
Proof. repeat split; vm_compute; reflexivity. Qed.

(** ** More on the comparison examples *)

Lemma enumerate_app {A} (l1 l2 : list A) (start : Z) :
  enumerate (l1 ++ l2) start
  = enumerate l1 start ++ enumerate l2 (start + Z.of_nat (length l1)).
Proof.
  revert start; induction l1 as [|x l1 IH]; intros start.
  - cbn [app enumerate length]. f_equal. lia.
  - cbn [app enumerate length]. rewrite IH. do 3 f_equal. lia.
Qed.

(** Appending samples to the input never changes or renumbers the
    examples already produced: it can only add examples behind them. *)
Theorem comparison_examples_extend (samples more : list Sample) :
  exists added,
    examples (build_comparison (samples ++ more))
    = examples (build_comparison samples) ++ added
    /\ (length (examples (build_comparison samples)) + length added <= 3)%nat.
Proof.
  rewrite !build_comparison_eq. cbn [examples].
  rewrite List.filter_app, firstn_app, enumerate_app, map_app.
  eexists. split; [reflexivity|].
  rewrite !length_map, !length_enumerate, !length_firstn. lia.
Qed.

(** Once the input holds three wrongly predicted samples, whatever
    follows is ignored. *)
Theorem comparison_saturates
    (json_dump : json -> str) (samples more : list Sample)
    (output_file : string) (w : world)
    (Hthree : (3 <= length (List.filter wrong_prediction samples))%nat) :
  create_comparison_examples json_dump (samples ++ more) output_file w
  = create_comparison_examples json_dump samples output_file w.
Proof.
  rewrite !create_comparison_examples_run, !build_comparison_eq.
  rewrite List.filter_app, firstn_app.
  replace (3 - length (List.filter wrong_prediction samples))%nat
    with 0%nat by lia.
  cbn [firstn]. now rewrite app_nil_r.
Qed.

Lemma comparison_saturates_witness :
  (3 <= length (List.filter wrong_prediction
                  [wrong_sample; right_sample; wrong_sample; wrong_sample]))%nat
  /\ create_comparison_examples compact_dump
       ([wrong_sample; right_sample; wrong_sample; wrong_sample]
        ++ [wrong_sample; right_sample])
       comparison_file empty_world
     = create_comparison_examples compact_dump
         [wrong_sample; right_sample; wrong_sample; wrong_sample]
         comparison_file empty_world.
Proof.
  assert (Hthree : (3 <= length (List.filter wrong_prediction
                      [wrong_sample; right_sample; wrong_sample; wrong_sample]))%nat).
  { vm_compute. lia. }
  split; [exact Hthree|].
  exact (comparison_saturates compact_dump
           [wrong_sample; right_sample; wrong_sample; wrong_sample]
           [wrong_sample; right_sample] comparison_file empty_world Hthree).
Defined.

(** ** More on the percentages *)

(** A percentage that is a whole number of tenths is printed exactly. *)
Theorem percent_exact_tenths (c t k : Z)
    (Hc : 0 <= c < 2 ^ 40)
    (Ht : 0 < t < 2 ^ 53)
    (Hexact : 1000 * c = k * t) :
  percent c t = inr (Float.fixed1 false k).
Proof.
  destruct (percent_nearest_tenth c t Hc Ht) as (r & -> & _ & Hnear).
  do 2 f_equal. nia.
Qed.

Lemma percent_exact_tenths_witness :
  0 <= 3 < 2 ^ 40
  /\ 0 < 8 < 2 ^ 53
  /\ 1000 * 3 = 375 * 8
  /\ percent 3 8 = inr (Float.fixed1 false 375)
  /\ Float.fixed1 false 375 = lit "37.5".
Proof.
  assert (Hc : 0 <= 3 < 2 ^ 40) by (simpl; lia).
  assert (Ht : 0 < 8 < 2 ^ 53) by (simpl; lia).
  split; [exact Hc|]. split; [exact Ht|]. split; [reflexivity|].
  split; [exact (percent_exact_tenths 3 8 375 Hc Ht eq_refl)|].
  vm_compute. reflexivity.
Defined.

(** A count between zero and the total is printed as a percentage
    between [0.0] and [100.0]. *)
Theorem percent_between_0_and_100 (c t : Z)
    (Hc : 0 <= c <= t)
    (Hsmall : c < 2 ^ 40)
    (Ht : 0 < t < 2 ^ 53) :
  exists r : Z,
    percent c t = inr (Float.fixed1 false r) /\ 0 <= r <= 1000.
Proof.
  destruct (percent_nearest_tenth c t ltac:(lia) Ht) as (r & Hp & Hr & Hnear).
  exists r. split; [exact Hp|]. nia.
Qed.

Lemma percent_between_0_and_100_witness :
  0 <= 2 <= 3
  /\ 2 < 2 ^ 40
  /\ 0 < 3 < 2 ^ 53
  /\ exists r : Z,
       percent 2 3 = inr (Float.fixed1 false r) /\ 0 <= r <= 1000.
Proof.
  assert (Hc : 0 <= 2 <= 3) by lia.
  assert (Hsmall : 2 < 2 ^ 40) by (simpl; lia).
  assert (Ht : 0 < 3 < 2 ^ 53) by (simpl; lia).
  split; [exact Hc|]. split; [exact Hsmall|]. split; [exact Ht|].
  exact (percent_between_0_and_100 2 3 Hc Hsmall Ht).
Defined.

(** An integer of magnitude [2^1024] or more rounds to an infinity. *)
Lemma binary_round_overflow (sx : bool) (p : positive) :
  2 ^ 1024 <= Zpos p ->
  binary_round 53 1024 sx p 0 = S754_infinity sx.
Proof.
  intros Hbig.
  pose proof (digits2_pos_bounds p) as [Hlo Hhi].
  pose proof (digits2_pos_range p 1024 (Zpos (digits2_pos p))
                ltac:(lia) (conj Hbig Hhi)) as [Hd _].
  set (d := Zpos (digits2_pos p)) in *.
  unfold binary_round. fold d. rewrite fexp_normal by lia.
  unfold shl_align.
  destruct (d + 0 - 53 - 0) as [|k|k] eqn:Hk; try lia.
  unfold binary_round_aux.
  destruct (shr_fexp_normal p 0 loc_Exact) as (mrs1 & -> & Hm1 & _);
    fold d; try lia.
  fold d in Hm1.
  assert (Hpow : 0 < 2 ^ (d - 53)) by (apply Z.pow_pos_nonneg; lia).
  assert (Hm' : 2 ^ 52 <= Zpos p / 2 ^ (d - 53)).
  { apply Z.div_le_lower_bound; [lia|].
    rewrite <- Z.pow_add_r by lia.
    replace (d - 53 + 52) with (d - 1) by lia. exact Hlo. }
  set (m1 := round_nearest_even (shr_m mrs1) (loc_of_shr_record mrs1)).
  assert (Hm1cases : m1 = Zpos p / 2 ^ (d - 53) \/ m1 = Zpos p / 2 ^ (d - 53) + 1).
  { unfold m1. rewrite <- Hm1. apply round_nearest_even_cases. }
  destruct m1 as [|p1|p1] eqn:Hp1; try lia.
  pose proof (digits2_pos_bounds p1) as [Hlo1 Hhi1].
  pose proof (digits2_pos_range p1 52 (Zpos (digits2_pos p1))
                ltac:(lia) ltac:(lia)) as [Hd1 _].
  destruct (shr_fexp_normal p1 (0 + (d - 53)) loc_Exact)
    as (mrs2 & -> & Hm2 & _); try lia.
  set (d1 := Zpos (digits2_pos p1)) in *.
  assert (Hpos2 : 0 < shr_m mrs2).
  { rewrite Hm2. apply Z.div_str_pos. split.
    - apply Z.pow_pos_nonneg; lia.
    - eapply Z.le_trans; [|exact Hlo1]. apply Z.pow_le_mono_r; lia. }
  destruct (shr_m mrs2) as [|m2|m2]; try lia.
  destruct (Z.leb_spec (0 + (d - 53) + (d1 - 53)) (1024 - 53)) as [Hle|_];
    [lia|reflexivity].
Qed.

(** [float(n)] raises for every [int] of magnitude [2^1024] or more. *)
Lemma of_int_overflow (n : Z) :
  2 ^ 1024 <= Z.abs n -> Float.of_int n = inl OverflowError.
Proof.
  intros Hbig. unfold Float.of_int, Float.prec, Float.emax.
  destruct n as [|p|p]; cbn [Z.abs] in Hbig.
  - exfalso. assert (0 < 2 ^ 1024) by (apply Z.pow_pos_nonneg; lia). lia.
  - cbn [binary_normalize]. now rewrite binary_round_overflow.
  - cbn [binary_normalize]. now rewrite binary_round_overflow.
Qed.

(** A correct-path count or a total of magnitude [2^1024] or more makes
    the table fail with [OverflowError], whatever the other fields hold
    (a total of zero included). *)
Theorem performance_table_overflow (stats : Statistics)
    (Hbig : 2 ^ 1024 <= Z.abs (correctPaths stats)
            \/ 2 ^ 1024 <= Z.abs (totalPaths stats)) :
  performance_table stats = inl OverflowError.
Proof.
  unfold performance_table, percent, percentage, Float.truediv_int.
  destruct Hbig as [Hc | Ht].
  - now rewrite (of_int_overflow _ Hc).
  - rewrite (of_int_overflow _ Ht).
    unfold Float.of_int.
    destruct (binary_normalize Float.prec Float.emax (correctPaths stats) 0 false);
      reflexivity.
Qed.

Lemma performance_table_overflow_witness :
  (2 ^ 1024 <= Z.abs (correctPaths overflowing_statistics)
   \/ 2 ^ 1024 <= Z.abs (totalPaths overflowing_statistics))
  /\ performance_table overflowing_statistics = inl OverflowError.
Proof.
  assert (Hbig : 2 ^ 1024 <= Z.abs (correctPaths overflowing_statistics)
                 \/ 2 ^ 1024 <= Z.abs (totalPaths overflowing_statistics)).
  { left. vm_compute. discriminate. }
  split; [exact Hbig|].
  exact (performance_table_overflow overflowing_statistics Hbig).
Defined.

(** ** More on the run as a whole *)

Section MoreRun.

Variable json_load_statistics : str -> option Statistics.
Variable json_load_samples : str -> option (list Sample).
Variable json_dump : json -> str.

Abbreviation load' := (load_data json_load_statistics json_load_samples).
Abbreviation run' := (main json_load_statistics json_load_samples json_dump).

(** Everything a run prints, behind what was printed before. *)
Lemma main_stdout (w : world) :
  stdout (fst (run' w))
  = stdout w ++ printed_before_loading
    ++ match snd (load' w) with
       | inl _ => []
       | inr (stats, samples) =>
           lit "
🎨 Generating presentation assets...
" :: firstn 2 confirmations
           ++ match performance_table stats with
              | inl _ => []
              | inr _ => skipn 2 confirmations ++ printed_at_the_end
              end
       end.
Proof.
  unfold main, mbind, M_bind, bind, print.
  rewrite !load_data_run. cbn [fst snd files stdout].
  destruct (files w !! statistics_file) as [text|];
    [|cbn [fst stdout]; now rewrite <- !app_assoc].
  destruct (json_load_statistics text) as [stats|];
    [|cbn [fst stdout]; now rewrite <- !app_assoc].
  destruct (files w !! samples_file) as [text'|];
    [|cbn [fst stdout]; now rewrite <- !app_assoc].
  destruct (json_load_samples text') as [samples|];
    [|cbn [fst stdout]; now rewrite <- !app_assoc].
  unfold create_comparison_examples, create_architecture_diagram,
    create_performance_table, create_slide_content, lift, write_file, print,
    mbind, M_bind, bind, mret, M_ret, ret.
  cbn [fst snd files stdout].
  destruct (performance_table stats) as [e|table];
    cbn [fst stdout]; now rewrite <- !app_assoc.
Qed.


(** A run changes no file but the four output files, and it removes
    none: every other name holds what it held, the inputs included. *)
Theorem main_touches_only_outputs (w : world) (name : string) :
  files (fst (run' w)) !! name = files w !! name
  \/ (In name output_files /\ is_Some (files (fst (run' w)) !! name)).
Proof.
  pose proof (main_run json_load_statistics json_load_samples json_dump w)
    as Hrun.
  destruct (snd (load' w)) as [e | [stats samples]].
  - injection Hrun as -> _. now left.
  - unfold output_files. cbn [In].
    destruct (performance_table stats) as [e | table];
      injection Hrun as -> _; unfold files_after_diagram;
      rewrite !lookup_insert; repeat case_decide; subst; eauto 10.
Qed.



(** The statistics file is read first: when it is missing or is not valid
    JSON, that alone decides the error, whatever the samples file holds,
    and only the lines before loading have been printed. *)
Theorem statistics_error_comes_first (w : world)
    (Hbad : unreadable json_load_statistics statistics_file w) :
  snd (run' w)
  = inl (match files w !! statistics_file with
         | None => FileNotFoundError
         | Some _ => JSONDecodeError
         end)
  /\ stdout (fst (run' w)) = stdout w ++ printed_before_loading
  /\ files (fst (run' w)) = files w.
Proof.
  assert (Hload : snd (load' w)
                  = inl (match files w !! statistics_file with
                         | None => FileNotFoundError
                         | Some _ => JSONDecodeError
                         end)).
  { unfold unreadable in Hbad. rewrite load_data_run. cbn [snd].
    destruct (files w !! statistics_file) as [text|]; [|reflexivity].
    now rewrite Hbad. }
  pose proof (main_run json_load_statistics json_load_samples json_dump w)
    as Hrun.
  pose proof (main_stdout w) as Hout.
  rewrite Hload in Hrun, Hout. injection Hrun as Hfiles Hres.
  split; [exact Hres|]. split; [|exact Hfiles].
  rewrite Hout. now rewrite app_nil_r.
Qed.

(** Whatever makes the table fail, the run ends in that error with the
    comparison document and the diagram written and the table and slide
    files as they were: the table is formatted before its file is opened. *)
Theorem table_failure_keeps_earlier_outputs
    (w : world) (stats : Statistics) (samples : list Sample) (e : exn)
    (Hload : snd (load' w) = inr (stats, samples))
    (Htable : performance_table stats = inl e) :
  snd (run' w) = inl e
  /\ files (fst (run' w)) !! comparison_file
     = Some (json_dump (comparison_json (build_comparison samples)))
  /\ files (fst (run' w)) !! diagram_file = Some architecture_diagram
  /\ files (fst (run' w)) !! table_file = files w !! table_file
  /\ files (fst (run' w)) !! slides_file = files w !! slides_file
  /\ List.filter is_confirmation
       (skipn (length (stdout w)) (stdout (fst (run' w))))
     = firstn 2 confirmations.
Proof.
  pose proof (main_run json_load_statistics json_load_samples json_dump w)
    as Hrun.
  pose proof (main_stdout w) as Hout.
  rewrite Hload in Hrun, Hout. rewrite Htable in Hrun, Hout.
  injection Hrun as Hfiles Hres.
  rewrite Hfiles, Hout. unfold files_after_diagram.
  split; [exact Hres|].
  split; [rewrite lookup_insert_ne by discriminate; apply lookup_insert_eq|].
  split; [apply lookup_insert_eq|].
  split; [now rewrite !lookup_insert_ne by discriminate|].
  split; [now rewrite !lookup_insert_ne by discriminate|].
  rewrite skipn_app, skipn_all, Nat.sub_diag. vm_compute. reflexivity.
Qed.

End MoreRun.


(** *** Concrete runs *)


Lemma statistics_error_comes_first_witness :
  unreadable load_balanced statistics_file no_statistics_world
  /\ snd (main load_balanced load_five compact_dump no_statistics_world)
     = inl FileNotFoundError
  /\ stdout (fst (main load_balanced load_five compact_dump no_statistics_world))
     = stdout no_statistics_world ++ printed_before_loading.
Proof.
  assert (Hbad : unreadable load_balanced statistics_file no_statistics_world)
    by (vm_compute; exact I).
  split; [exact Hbad|].
  destruct (statistics_error_comes_first load_balanced load_five compact_dump
              no_statistics_world Hbad) as (Hres & Hout & _).
  split; [exact Hres|exact Hout].
Defined.

Lemma table_failure_keeps_earlier_outputs_witness :
  snd (load_data load_overflowing load_five input_world)
  = inr (overflowing_statistics, five_samples)
  /\ performance_table overflowing_statistics = inl OverflowError
  /\ snd (main load_overflowing load_five compact_dump input_world)
     = inl OverflowError
  /\ files (fst (main load_overflowing load_five compact_dump input_world))
       !! diagram_file = Some architecture_diagram.
Proof.
  assert (Hload : snd (load_data load_overflowing load_five input_world)
                  = inr (overflowing_statistics, five_samples))
    by (vm_compute; reflexivity).
  assert (Htable : performance_table overflowing_statistics = inl OverflowError)
    by (vm_compute; reflexivity).
  split; [exact Hload|]. split; [exact Htable|].
  destruct (table_failure_keeps_earlier_outputs
              load_overflowing load_five compact_dump input_world
              overflowing_statistics five_samples OverflowError Hload Htable)
    as (Hres & _ & Hdiagram & _).
  split; [exact Hres|exact Hdiagram].
Defined.
